(** * The AutoDM test harness: event collection, reconciliation, reporting

    A shallow embedding of the scripts under [backend/]:
    - [fulltest.py]: the WebSocket message handler, the polling loop that
      decides when collection stops, the choice between the REST event log
      and the live buffer, and the result record;
    - [test_debug.py]: the subscribe / drain / start-game exchange;
    - [test_llm_api.py]: the two provider probes [test_gemini] and
      [test_deepseek].

    Values are the Python objects that [json.loads] produces.  Code that can
    raise is written in an error monad whose failures are Python exception
    classes.  What the scripts take from their surroundings (the JSON
    decoder, [str()], the clock, the server's answers) enters as an argument
    of the function that uses it. *)

From stdpp Require Import base tactics option list strings pretty.
From Stdlib Require Import ZArith Lia.

Open Scope Z_scope.
Set Warnings "-register-all".

(** ** Python values and exceptions *)

Module Py.

(** Exception classes that the modelled code can meet. *)
Inductive exn :=
| TypeError
| AttributeError
| KeyError
| IndexError
| JSONDecodeError
| UnicodeDecodeError
| URLError
| WebSocketTimeoutException
| WebSocketConnectionClosedException.

(** The outcome of an expression: a value, or a raised exception. *)
Inductive result (A : Type) :=
| Ok (a : A)
| Raise (e : exn).
Arguments Ok {A} a.
Arguments Raise {A} e.

Definition bind {A B} (r : result A) (k : A → result B) : result B :=
  match r with
  | Ok a => k a
  | Raise e => Raise e
  end.

Declare Scope py_scope.
Notation "x ← r ; k" := (bind r (λ x, k))
  (at level 20, r at level 100, k at level 200, only parsing) : py_scope.
Delimit Scope py_scope with py.
Open Scope py_scope.

(** JSON-shaped Python objects.  The floats of the scripts are clock
    readings, their differences and one constant; a [float] is kept as its
    number of thousandths, so that a time in seconds reads in milliseconds.
    A [dict] keeps its items in insertion order, keys unique. *)
Inductive value :=
| VNone
| VBool (b : bool)
| VInt (n : Z)
| VFloat (thousandths : Z)
| VStr (s : string)
| VList (l : list value)
| VDict (d : list (string * value)).

Definition dict := list (string * value).

Fixpoint lookup_key (d : dict) (k : string) : option value :=
  match d with
  | [] => None
  | (k', v) :: d => if String.eqb k' k then Some v else lookup_key d k
  end.

(** [v.get(k, default)]: only a dict has the method. *)
Definition get (v : value) (k : string) (default : value) : result value :=
  match v with
  | VDict d => Ok (from_option id default (lookup_key d k))
  | _ => Raise AttributeError
  end.

(** [v == 'lit'] for a string literal. *)
Definition eq_str (v : value) (lit : string) : bool :=
  match v with
  | VStr s => String.eqb s lit
  | _ => false
  end.

(** Truth value of an object, as [if v] and [a if v else b] test it. *)
Definition truthy (v : value) : bool :=
  match v with
  | VNone => false
  | VBool b => b
  | VInt n => negb (n =? 0)
  | VFloat x => negb (x =? 0)
  | VStr s => negb (String.eqb s EmptyString)
  | VList l => match l with [] => false | _ => true end
  | VDict d => match d with [] => false | _ => true end
  end.

(** *** Strings by code points

    A string stands for the Python [str] of which it is the UTF-8
    encoding.  Python counts, cuts and walks a [str] by code points: a code
    point is the first byte of the string, or a byte that is not a
    continuation byte [10xxxxxx], together with the continuation bytes
    that follow it. *)
Definition is_continuation (c : Ascii.ascii) : bool :=
  match c with Ascii.Ascii _ _ _ _ _ _ b6 b7 => b7 && negb b6 end.

(** The code points that start after the first byte. *)
Fixpoint tail_len (s : string) : nat :=
  match s with
  | EmptyString => O
  | String c rest => if is_continuation c then tail_len rest else S (tail_len rest)
  end.

(** [len(s)] *)
Definition str_len (s : string) : nat :=
  match s with
  | EmptyString => O
  | String _ rest => S (tail_len rest)
  end.

(** The rest of the code point under way and [n] more code points. *)
Fixpoint take_tail (n : nat) (s : string) : string :=
  match s with
  | EmptyString => EmptyString
  | String c rest =>
    if is_continuation c then String c (take_tail n rest)
    else match n with
         | O => EmptyString
         | S n => String c (take_tail n rest)
         end
  end.

(** [s[:n]] *)
Definition str_take (n : nat) (s : string) : string :=
  match n, s with
  | S n, String c rest => String c (take_tail n rest)
  | _, _ => EmptyString
  end.

(** [list(s)]: the code points of [s], each a string. *)
Fixpoint code_points (s : string) : list string :=
  match s with
  | EmptyString => []
  | String c rest =>
    match rest with
    | EmptyString => [String c EmptyString]
    | String c' _ =>
      if is_continuation c' then
        match code_points rest with
        | g :: gs => String c g :: gs
        | [] => [String c EmptyString]
        end
      else String c EmptyString :: code_points rest
    end
  end.

(** [len(v)] *)
Definition len (v : value) : result nat :=
  match v with
  | VStr s => Ok (str_len s)
  | VList l => Ok (length l)
  | VDict d => Ok (length d)
  | _ => Raise TypeError
  end.

Definition chars (s : string) : list value := map VStr (code_points s).

(** What [for e in v] walks through. *)
Definition iter (v : value) : result (list value) :=
  match v with
  | VList l => Ok l
  | VDict d => Ok (map (λ kv, VStr kv.1) d)
  | VStr s => Ok (chars s)
  | _ => Raise TypeError
  end.

(** [v[:n]]: a string is cut to its first [n] code points, a list to its
    first [n] items; the other objects are not subscriptable.  Slicing a
    dict raises as well: the slice is looked up as a key, which up to
    Python 3.11 is a [TypeError] (a slice cannot be hashed) and from 3.12
    on a [KeyError]; the model takes the first. *)
Definition slice_to (n : nat) (v : value) : result value :=
  match v with
  | VStr s => Ok (VStr (str_take n s))
  | VList l => Ok (VList (take n l))
  | _ => Raise TypeError
  end.

Lemma length_code_points (s : string) : length (code_points s) = str_len s.
Proof.
  induction s as [|c [|c' rest] IH]; [done..|].
  change (code_points (String c (String c' rest)))
    with (if is_continuation c' then
            match code_points (String c' rest) with
            | g :: gs => String c g :: gs
            | [] => [String c EmptyString]
            end
          else String c EmptyString :: code_points (String c' rest)).
  simpl str_len in *. simpl tail_len.
  destruct (is_continuation c'); [|cbn [length]; by rewrite IH].
  destruct (code_points (String c' rest)); simpl in *; lia.
Qed.

Lemma code_points_cons (c : Ascii.ascii) (rest : string) :
  ∃ g gs, code_points (String c rest) = g :: gs.
Proof.
  destruct rest as [|c' rest]; [by eexists _, _|].
  change (code_points (String c (String c' rest)))
    with (if is_continuation c' then
            match code_points (String c' rest) with
            | g :: gs => String c g :: gs
            | [] => [String c EmptyString]
            end
          else String c EmptyString :: code_points (String c' rest)).
  destruct (is_continuation c'); [|by eexists _, _].
  destruct (code_points (String c' rest)); by eexists _, _.
Qed.

Lemma take_tail_prefix (n : nat) (s : string) :
  String.prefix (take_tail n s) s = true.
Proof.
  revert n. induction s as [|c rest IH]; intros n; [done|].
  simpl. destruct (is_continuation c); simpl.
  - destruct (Ascii.ascii_dec c c); [apply IH|done].
  - destruct n; [done|]. simpl.
    destruct (Ascii.ascii_dec c c); [apply IH|done].
Qed.

Lemma tail_len_take_tail (n : nat) (s : string) :
  tail_len (take_tail n s) = (n `min` tail_len s)%nat.
Proof.
  revert n. induction s as [|c rest IH]; intros n; simpl; [lia|].
  destruct (is_continuation c) eqn:Hc; simpl.
  - by rewrite Hc.
  - destruct n; [done|]. simpl. rewrite Hc, IH. lia.
Qed.

Lemma take_tail_all (n : nat) (s : string) :
  (tail_len s ≤ n)%nat → take_tail n s = s.
Proof.
  revert n. induction s as [|c rest IH]; intros n; simpl; [done|].
  destruct (is_continuation c).
  - intros Hn. by rewrite IH.
  - destruct n; [lia|]. intros Hn. rewrite IH; [done|lia].
Qed.

(** A cut is a prefix, holds [n] code points or the whole string if that
    has fewer, and leaves a string of at most [n] code points alone. *)
Lemma str_take_prefix (n : nat) (s : string) :
  String.prefix (str_take n s) s = true.
Proof.
  destruct n, s as [|c rest]; simpl; try done.
  destruct (Ascii.ascii_dec c c); [apply take_tail_prefix|done].
Qed.

Lemma str_len_take (n : nat) (s : string) :
  str_len (str_take n s) = (n `min` str_len s)%nat.
Proof.
  destruct n, s as [|c rest]; simpl; try done.
  by rewrite tail_len_take_tail.
Qed.

Lemma str_take_all (n : nat) (s : string) :
  (str_len s ≤ n)%nat → str_take n s = s.
Proof.
  destruct s as [|c rest]; [by destruct n|]. simpl.
  destruct n; [lia|]. intros Hn. simpl. rewrite take_tail_all; [done|lia].
Qed.

(** Seven characters of three bytes each are no more than twenty
    characters; two of them are six bytes. *)
Example slice_by_code_points :
  slice_to 20 (VStr "说书人说书人说") = Ok (VStr "说书人说书人说")
  ∧ slice_to 2 (VStr "说书人说书人说") = Ok (VStr "说书")
  ∧ len (VStr "说书人说书人说") = Ok 7%nat
  ∧ chars "说书" = [VStr "说"; VStr "书"].
Proof. by vm_compute. Qed.

End Py.
Import Py.

(** ** Event Collector: [fulltest.on_message] *)

Module Collector.

(** The two globals the handler writes. *)
Record state := State {
  collected_events : list value;
  game_started : bool
}.

Definition init : state := State [] false.

Definition append (st : state) (evt : value) : state :=
  State (collected_events st ++ [evt]) (game_started st).

Definition set_started (st : state) : state :=
  State (collected_events st) true.

Section Handler.

Variable json_loads : string → result value.

(** The [try] body of [on_message], threading the globals.  The state
    travels with the exception too: what was appended before a later
    [raise] stays appended. *)
Definition on_message_body (st : state) (message : string) : state * result unit :=
  match json_loads message with
  | Raise e => (st, Raise e)
  | Ok msg =>
    match get msg "type" VNone with
    | Raise e => (st, Raise e)
    | Ok ty =>
      if eq_str ty "event" then
        match get msg "payload" (VDict []) with
        | Raise e => (st, Raise e)
        | Ok evt =>
          let st := append st evt in
          match get evt "event_type" (VStr "?") with
          | Raise e => (st, Raise e)
          | Ok etype =>
            if eq_str etype "game.started"
            then (set_started st, Ok ())
            else (st, Ok ())
          end
        end
      else (st, Ok ())
    end
  end.

(** [except: pass] *)
Definition on_message (st : state) (message : string) : state :=
  (on_message_body st message).1.

(** The handler run over the frames of a connection, in arrival order. *)
Definition deliver (st : state) (messages : list string) : state :=
  fold_left on_message messages st.

(** An [event]-kind envelope: a frame that decodes to an object whose
    [type] is ["event"]. *)
Definition is_event_envelope (message : string) : bool :=
  match json_loads message with
  | Ok (VDict d) => eq_str (from_option id VNone (lookup_key d "type")) "event"
  | _ => false
  end.

(** The Game Event an [event] envelope carries. *)
Definition envelope_event (message : string) : value :=
  match json_loads message with
  | Ok (VDict d) => from_option id (VDict []) (lookup_key d "payload")
  | _ => VDict []
  end.

Lemma on_message_event st message :
  is_event_envelope message = true →
  collected_events (on_message st message)
  = collected_events st ++ [envelope_event message].
Proof.
  unfold is_event_envelope, envelope_event, on_message, on_message_body.
  destruct (json_loads message) as [[| | | | | |d]|]; try discriminate.
  simpl. intros ->.
  destruct (get _ "event_type" _) as [etype|]; [|done].
  by destruct (eq_str etype "game.started").
Qed.

Lemma on_message_other st message :
  is_event_envelope message = false →
  collected_events (on_message st message) = collected_events st.
Proof.
  unfold is_event_envelope, on_message, on_message_body.
  destruct (json_loads message) as [[| | | | | |d]|]; try done.
  simpl. by intros ->.
Qed.

Lemma deliver_collected messages : ∀ st,
  collected_events (deliver st messages)
  = collected_events st
    ++ map envelope_event (List.filter is_event_envelope messages).
Proof.
  induction messages as [|m messages IH]; intros st; simpl.
  - by rewrite app_nil_r.
  - rewrite IH. destruct (is_event_envelope m) eqn:Hm.
    + rewrite on_message_event by done. by rewrite <- app_assoc.
    + by rewrite on_message_other.
Qed.

End Handler.

(** A decoder for the frames of the run below. *)
Definition frames_fixture (message : string) : result value :=
  if String.eqb message "ack" then
    Ok (VDict [("type", VStr "subscribed")])
  else if String.eqb message "started" then
    Ok (VDict [("type", VStr "event");
               ("payload", VDict [("seq", VInt 1); ("event_type", VStr "game.started")])])
  else if String.eqb message "chat" then
    Ok (VDict [("type", VStr "event");
               ("payload", VDict [("seq", VInt 2); ("event_type", VStr "public.chat")])])
  else if String.eqb message "seven" then
    Ok (VDict [("type", VStr "event"); ("payload", VInt 7)])
  else if String.eqb message "list" then Ok (VList [])
  else Raise JSONDecodeError.

(** Frames of every sort: only the three [event] envelopes leave a trace,
    in their order of arrival; the payload [7] is appended before the
    handler fails on it. *)
Example deliver_mixed_frames :
  deliver frames_fixture init ["ack"; "chat"; "no json"; "list"; "seven"; "started"]
  = State [VDict [("seq", VInt 2); ("event_type", VStr "public.chat")];
           VInt 7;
           VDict [("seq", VInt 1); ("event_type", VStr "game.started")]]
          true.
Proof. reflexivity. Qed.

(** C4: whatever frames reach the handler, the buffer ends up holding the
    events of the [event]-kind envelopes and nothing else, one entry per
    such envelope, in the order in which the envelopes arrived. *)
Theorem buffer_is_event_envelopes_in_arrival_order
    (json_loads : string → result value) (messages : list string) :
  let buffer := collected_events (deliver json_loads init messages) in
  buffer = map (envelope_event json_loads)
               (List.filter (is_event_envelope json_loads) messages)
  ∧ length buffer = length (List.filter (is_event_envelope json_loads) messages).
Proof.
  simpl. rewrite deliver_collected. simpl. split; [done|].
  by rewrite length_map.
Qed.

End Collector.

(** ** Completion Detector: the polling loop of [fulltest.py] *)

Module Detector.

(** Clock readings are milliseconds since [start = time.time()].  The clock
    moves only while the script sleeps, and a sleep lasts as long as asked. *)
Definition timeout : Z := 60000.
Definition poll_interval : Z := 2000.
Definition grace : Z := 5000.
Definition quorum : nat := 4.

(** [sum(1 for e in collected_events if e.get('event_type') == 'public.chat')] *)
Fixpoint chat_count (collected_events : list value) : result nat :=
  match collected_events with
  | [] => Ok 0%nat
  | e :: rest =>
    ty ← get e "event_type" VNone;
    n ← chat_count rest;
    Ok (if eq_str ty "public.chat" then S n else n)
  end.

(** What the WebSocket thread does to the buffer, seen from the main
    thread: each entry is an event and the time at which [on_message]
    appended it, in arrival order. *)
Definition stream := list (Z * value).

(** The buffer as the main thread finds it at time [t]. *)
Definition buffer_at (s : stream) (t : Z) : list value :=
  map snd (List.filter (λ a, a.1 <=? t) s).

(** How the [while] loop is left. *)
Inductive loop_exit :=
| Quorum (seen leave : Z)      (* [chat_count >= 4] seen, loop left after the grace sleep *)
| TimedOut (leave : Z)         (* the [while] condition failed *)
| Crashed (e : exn) (at_ : Z)  (* an exception left the loop *)
| OutOfFuel.

Fixpoint poll (fuel : nat) (s : stream) (now : Z) : loop_exit :=
  match fuel with
  | O => OutOfFuel
  | S fuel =>
    if now <? timeout then
      let now := now + poll_interval in
      match chat_count (buffer_at s now) with
      | Raise e => Crashed e now
      | Ok c =>
        if (quorum <=? c)%nat then Quorum now (now + grace) else poll fuel s now
      end
    else TimedOut now
  end.

(** The loop entered at [start]; it cannot go round more often than the
    budget holds polling intervals. *)
Definition collection_loop (s : stream) : loop_exit :=
  poll (S (Z.to_nat (timeout / poll_interval))) s 0.

(** The time at which the loop's stop condition is first found true. *)
Definition stop_seen (x : loop_exit) : option Z :=
  match x with
  | Quorum seen _ => Some seen
  | TimedOut leave => Some leave
  | _ => None
  end.

(** Streams of Game Events proper: every event is an object. *)
Definition events (s : list (Z * dict)) : stream :=
  map (λ a, (a.1, VDict a.2)) s.

Definition is_chat (e : dict) : bool :=
  eq_str (from_option id VNone (lookup_key e "event_type")) "public.chat".

(** Arrival times of the chat events of a stream. *)
Definition chat_times (s : list (Z * dict)) : list Z :=
  map fst (List.filter (λ a, is_chat a.2) s).

Definition arrived_by (t : Z) (times : list Z) : nat :=
  length (List.filter (λ x, x <=? t) times).

Lemma chat_count_events (s : list (Z * dict)) t :
  chat_count (buffer_at (events s) t) = Ok (arrived_by t (chat_times s)).
Proof.
  unfold buffer_at, events, chat_times, arrived_by.
  induction s as [|[u e] s IH]; [done|]. simpl.
  destruct (u <=? t) eqn:Hu; simpl.
  - rewrite IH. simpl. fold (is_chat e).
    destruct (is_chat e); simpl; by rewrite ?Hu.
  - destruct (is_chat e); simpl; by rewrite ?Hu.
Qed.

Lemma poll_step fuel (s : stream) now :
  poll (S fuel) s now
  = if now <? timeout then
      match chat_count (buffer_at s (now + poll_interval)) with
      | Raise e => Crashed e (now + poll_interval)
      | Ok c =>
        if (quorum <=? c)%nat
        then Quorum (now + poll_interval) (now + poll_interval + grace)
        else poll fuel s (now + poll_interval)
      end
    else TimedOut now.
Proof. done. Qed.

Lemma arrived_by_le t times : (arrived_by t times ≤ length times)%nat.
Proof. apply List.filter_length_le. Qed.

(** Polling with the quorum out of reach goes on to the budget. *)
Lemma poll_runs_out (s : stream) :
  (∀ t, ∃ c, chat_count (buffer_at s t) = Ok c ∧ (c < quorum)%nat) →
  ∀ (k fuel : nat) now,
    (k < fuel)%nat →
    timeout ≤ now + poll_interval * Z.of_nat k →
    (0 < k)%nat → now + poll_interval * (Z.of_nat k - 1) < timeout →
    poll fuel s now = TimedOut (now + poll_interval * Z.of_nat k).
Proof.
  intros Hlow. induction k as [|k IH]; intros fuel now Hfuel Hend Hpos Hlast; [lia|].
  destruct fuel as [|fuel]; [lia|]. rewrite poll_step.
  assert ((now <? timeout) = true) as ->.
  { apply Z.ltb_lt. unfold poll_interval in *. lia. }
  destruct (Hlow (now + poll_interval)) as (c & -> & Hc).
  assert ((quorum <=? c)%nat = false) as -> by (apply Nat.leb_gt; lia).
  destruct k as [|k].
  - destruct fuel as [|fuel]; [lia|]. rewrite poll_step.
    assert ((now + poll_interval <? timeout) = false) as ->.
    { apply Z.ltb_ge. lia. }
    f_equal; lia.
  - rewrite IH; [f_equal; lia|lia|lia|lia|lia].
Qed.

(** Polling stops at the first poll that finds the quorum. *)
Lemma poll_finds_quorum (s : stream) :
  ∀ (k fuel : nat) now,
    (k < fuel)%nat →
    now + poll_interval * Z.of_nat k < timeout →
    (∀ i, (i < k)%nat →
       ∃ c, chat_count (buffer_at s (now + poll_interval * (Z.of_nat i + 1))) = Ok c
            ∧ (c < quorum)%nat) →
    (∃ c, chat_count (buffer_at s (now + poll_interval * (Z.of_nat k + 1))) = Ok c
          ∧ (quorum ≤ c)%nat) →
    poll fuel s now
    = Quorum (now + poll_interval * (Z.of_nat k + 1))
             (now + poll_interval * (Z.of_nat k + 1) + grace).
Proof.
  induction k as [|k IH]; intros fuel now Hfuel Hin Hbefore (c & Hc & Hq);
    (destruct fuel as [|fuel]; [lia|]); rewrite poll_step.
  - assert ((now <? timeout) = true) as -> by (apply Z.ltb_lt; lia).
    replace (now + poll_interval * (Z.of_nat 0 + 1)) with (now + poll_interval) in * by lia.
    rewrite Hc. by assert ((quorum <=? c)%nat = true) as -> by (by apply Nat.leb_le).
  - assert ((now <? timeout) = true) as ->.
    { apply Z.ltb_lt. unfold poll_interval in *. lia. }
    destruct (Hbefore O) as (c0 & Hc0 & Hlt); [lia|].
    replace (now + poll_interval * (Z.of_nat 0 + 1)) with (now + poll_interval) in Hc0 by lia.
    rewrite Hc0.
    assert ((quorum <=? c0)%nat = false) as -> by (apply Nat.leb_gt; lia).
    rewrite (IH fuel (now + poll_interval)).
    + f_equal; lia.
    + lia.
    + lia.
    + intros i Hi. destruct (Hbefore (S i)) as (ci & Hci & Hlti); [lia|].
      exists ci. split; [|done]. rewrite <- Hci. do 2 f_equal. lia.
    + exists c. split; [|done]. rewrite <- Hc. do 2 f_equal. lia.
Qed.

Lemma arrived_by_four t t1 t2 t3 t4 :
  t1 < t2 → t2 < t3 → t3 < t4 →
  (t4 ≤ t → arrived_by t [t1; t2; t3; t4] = 4%nat)
  ∧ (t < t4 → (arrived_by t [t1; t2; t3; t4] < 4)%nat).
Proof.
  intros H12 H23 H34. unfold arrived_by. simpl.
  destruct (Z.leb_spec t1 t), (Z.leb_spec t2 t), (Z.leb_spec t3 t),
    (Z.leb_spec t4 t); simpl; split; lia.
Qed.

(** The loop never runs out of fuel: it is left by one of the three exits
    that the script has. *)
Lemma poll_total (s : stream) : ∀ (fuel : nat) now,
  timeout ≤ now + poll_interval * Z.of_nat fuel →
  poll (S fuel) s now ≠ OutOfFuel.
Proof.
  induction fuel as [|fuel IH]; intros now Hfuel; rewrite poll_step.
  - destruct (Z.ltb_spec now timeout); [lia|done].
  - destruct (now <? timeout); [|done].
    destruct (chat_count _) as [c|]; [|done].
    destruct (quorum <=? c)%nat; [done|]. apply IH. lia.
Qed.

Lemma collection_loop_total (s : stream) : collection_loop s ≠ OutOfFuel.
Proof. apply poll_total. by vm_compute. Qed.

(** C6, as the loop has it: a stream of Game Events, each of them an
    object, that never holds a quorum of chat events lets the loop run to
    the hard budget: the [while] condition fails at exactly [timeout] after
    [start], not before, and the loop is left there normally, without an
    exception. *)
Theorem timeout_exit_at_budget (s : list (Z * dict)) :
  (length (chat_times s) < quorum)%nat →
  collection_loop (events s) = TimedOut timeout
  ∧ stop_seen (collection_loop (events s)) = Some timeout.
Proof.
  intros Hfew.
  assert (collection_loop (events s) = TimedOut timeout) as ->; [|done].
  unfold collection_loop.
  replace (TimedOut timeout) with (TimedOut (0 + poll_interval * Z.of_nat 30)) by done.
  apply poll_runs_out;
    [|change (Z.to_nat (timeout / poll_interval)) with 30%nat;
      unfold timeout, poll_interval; lia..].
  intros t. exists (arrived_by t (chat_times s)). split.
  - apply chat_count_events.
  - pose proof (arrived_by_le t (chat_times s)). lia.
Qed.

Definition chat_event (seq : Z) : dict :=
  [("seq", VInt seq); ("event_type", VStr "public.chat")].
Definition phase_event (seq : Z) : dict :=
  [("seq", VInt seq); ("event_type", VStr "phase.night")].

Lemma timeout_exit_at_budget_witness :
  collection_loop
    (events [(1500, phase_event 1); (2500, chat_event 2); (9000, chat_event 3)])
  = TimedOut timeout.
Proof.
  refine (proj1 (timeout_exit_at_budget
    [(1500, phase_event 1); (2500, chat_event 2); (9000, chat_event 3)] _)).
  vm_compute. lia.
Defined.

(** A buffer entry that is not an object: no chat event ever arrives, and
    yet the loop is not left at the budget nor normally; the first poll
    raises. *)
Lemma budget_missed_on_non_object :
  buffer_at [(1000, VInt 7)] timeout = [VInt 7]
  ∧ collection_loop [(1000, VInt 7)] = Crashed AttributeError 2000
  ∧ collection_loop [(1000, VInt 7)] ≠ TimedOut timeout.
Proof. split; [by vm_compute|]. split; [by vm_compute|]. by vm_compute. Qed.

(** Polls that find no quorum are gone through one by one. *)
Lemma poll_skip (s : stream) : ∀ (k fuel : nat) now,
  ((0 < k)%nat → now + poll_interval * (Z.of_nat k - 1) < timeout) →
  (∀ i, (i < k)%nat →
     ∃ c, chat_count (buffer_at s (now + poll_interval * (Z.of_nat i + 1))) = Ok c
          ∧ (c < quorum)%nat) →
  poll (k + fuel) s now = poll fuel s (now + poll_interval * Z.of_nat k).
Proof.
  induction k as [|k IH]; intros fuel now Hin Hbefore.
  - simpl. f_equal. lia.
  - change (S k + fuel)%nat with (S (k + fuel)). rewrite poll_step.
    assert ((now <? timeout) = true) as ->.
    { apply Z.ltb_lt. unfold poll_interval in *. lia. }
    destruct (Hbefore O) as (c & Hc & Hlt); [lia|].
    replace (now + poll_interval * (Z.of_nat 0 + 1)) with (now + poll_interval)
      in Hc by lia.
    rewrite Hc.
    assert ((quorum <=? c)%nat = false) as -> by (apply Nat.leb_gt; lia).
    rewrite IH.
    + f_equal. lia.
    + intros Hk. unfold poll_interval in *. lia.
    + intros i Hi. destruct (Hbefore (S i)) as (ci & Hci & Hlti); [lia|].
      exists ci. split; [|done]. rewrite <- Hci. do 2 f_equal. lia.
Qed.

Lemma arrived_by_mono t t' times :
  t ≤ t' → (arrived_by t times ≤ arrived_by t' times)%nat.
Proof.
  intros Ht. unfold arrived_by. induction times as [|x times IH]; [done|].
  simpl. destruct (Z.leb_spec x t), (Z.leb_spec x t'); simpl; lia.
Qed.

(** Four chat events, the last within the budget: the quorum is first
    seen at the first poll at or after the fourth. *)
Lemma quorum_seen_within_budget
    (s : list (Z * dict)) t1 t2 t3 t4 :
  chat_times s = [t1; t2; t3; t4] →
  0 ≤ t1 → t1 < t2 → t2 < t3 → t3 < t4 → t4 ≤ timeout →
  ∃ p, collection_loop (events s) = Quorum p (p + grace)
       ∧ t4 ≤ p ∧ p < t4 + poll_interval ∧ p < t4 + grace
       ∧ ∀ t, t < t4 →
           ∃ c, chat_count (buffer_at (events s) t) = Ok c ∧ (c < quorum)%nat.
Proof.
  intros Hs H0 H12 H23 H34 Hin.
  set (q := (t4 + (poll_interval - 1)) / poll_interval).
  assert (poll_interval * q ≤ t4 + (poll_interval - 1)
          ∧ t4 + (poll_interval - 1) < poll_interval * q + poll_interval) as [Hq1 Hq2].
  { pose proof (Z.div_mod (t4 + (poll_interval - 1)) poll_interval).
    pose proof (Z.mod_pos_bound (t4 + (poll_interval - 1)) poll_interval).
    unfold poll_interval in *. fold q in H. lia. }
  unfold poll_interval, timeout, grace in *.
  assert (1 ≤ q ≤ 30) as Hq by lia.
  exists (2000 * q).
  assert (∀ t, t < t4 → ∃ c, chat_count (buffer_at (events s) t) = Ok c
                              ∧ (c < quorum)%nat) as Hbefore.
  { intros t Ht. exists (arrived_by t (chat_times s)).
    split; [apply chat_count_events|]. rewrite Hs.
    by apply arrived_by_four. }
  split; [|repeat split; try lia; done].
  unfold collection_loop.
  replace (2000 * q) with (0 + poll_interval * (Z.of_nat (Z.to_nat (q - 1)) + 1))
    by (unfold poll_interval; lia).
  apply poll_finds_quorum.
  - change (Z.to_nat (timeout / poll_interval)) with 30%nat. lia.
  - unfold poll_interval, timeout. lia.
  - intros i Hi. apply Hbefore. unfold poll_interval. lia.
  - exists (arrived_by (0 + poll_interval * (Z.of_nat (Z.to_nat (q - 1)) + 1))
                       (chat_times s)).
    split; [apply chat_count_events|]. rewrite Hs.
    destruct (arrived_by_four (0 + poll_interval * (Z.of_nat (Z.to_nat (q - 1)) + 1))
                t1 t2 t3 t4) as [-> _]; try done.
    unfold poll_interval. lia.
Qed.

(** C5, as the loop has it: on a stream of Game Events, each of them an
    object, with four chat events arriving at [0 <= t1 < t2 < t3 < t4].
    When [t4 <= timeout] the quorum test succeeds for the first time at the
    first poll at or after [t4], which is less than one polling interval,
    hence less than the grace period, after [t4]; no earlier reading of the
    buffer holds a quorum; the loop is left one grace period after that
    poll.  When [t4] lies beyond [timeout] the loop is left by the clock at
    [timeout], before [t4]. *)
Theorem quorum_seen_at_first_poll_after_fourth_chat
    (s : list (Z * dict)) t1 t2 t3 t4 :
  chat_times s = [t1; t2; t3; t4] →
  0 ≤ t1 → t1 < t2 → t2 < t3 → t3 < t4 →
  (t4 ≤ timeout →
   ∃ p, collection_loop (events s) = Quorum p (p + grace)
        ∧ t4 ≤ p ∧ p < t4 + poll_interval ∧ p < t4 + grace
        ∧ ∀ t, t < t4 →
            ∃ c, chat_count (buffer_at (events s) t) = Ok c ∧ (c < quorum)%nat)
  ∧ (timeout < t4 →
     collection_loop (events s) = TimedOut timeout
     ∧ stop_seen (collection_loop (events s)) = Some timeout).
Proof.
  intros Hs H0 H12 H23 H34. split.
  - intros Hin. by eapply quorum_seen_within_budget.
  - intros Hlate.
    assert (collection_loop (events s) = TimedOut timeout) as ->; [|done].
    unfold collection_loop.
    change (S (Z.to_nat (timeout / poll_interval))) with (30 + 1)%nat.
    rewrite poll_skip.
    + done.
    + intros _. unfold poll_interval, timeout. lia.
    + intros i Hi. eexists. split; [apply chat_count_events|]. rewrite Hs.
      apply arrived_by_four; try done. unfold poll_interval, timeout in *. lia.
Qed.

Definition four_chats : list (Z * dict) :=
  [(1000, chat_event 1); (2500, phase_event 2); (3000, chat_event 3);
   (7000, chat_event 4); (9500, chat_event 5)].

Lemma quorum_seen_at_first_poll_after_fourth_chat_witness :
  (9500 ≤ timeout →
   ∃ p, collection_loop (events four_chats) = Quorum p (p + grace)
        ∧ 9500 ≤ p ∧ p < 9500 + poll_interval ∧ p < 9500 + grace
        ∧ ∀ t, t < 9500 →
            ∃ c, chat_count (buffer_at (events four_chats) t) = Ok c
                 ∧ (c < quorum)%nat)
  ∧ (timeout < 9500 →
     collection_loop (events four_chats) = TimedOut timeout
     ∧ stop_seen (collection_loop (events four_chats)) = Some timeout).
Proof.
  apply (quorum_seen_at_first_poll_after_fourth_chat four_chats 1000 3000 7000 9500);
    [reflexivity | lia ..].
Defined.

(** Four chat events that all arrive after the budget: the loop is left by
    the clock at [timeout], before the fourth (indeed before the first) of
    them, and no quorum is ever seen.  Four chat events within the budget
    behind an entry that is not an object: the first poll raises, before
    the fourth of them has arrived. *)
Definition late_chats : list (Z * dict) :=
  [(70000, chat_event 1); (80000, chat_event 2); (90000, chat_event 3);
   (100000, chat_event 4)].

Lemma quorum_not_seen_in_window :
  chat_times late_chats = [70000; 80000; 90000; 100000]
  ∧ collection_loop (events late_chats) = TimedOut 60000
  ∧ stop_seen (collection_loop (events late_chats)) = Some 60000
  ∧ ¬ (100000 ≤ 60000)
  ∧ chat_times four_chats = [1000; 3000; 7000; 9500]
  ∧ collection_loop ((500, VNone) :: events four_chats) = Crashed AttributeError 2000
  ∧ stop_seen (collection_loop ((500, VNone) :: events four_chats)) = None.
Proof.
  split; [by vm_compute|]. split; [by vm_compute|]. split; [by vm_compute|].
  split; [lia|]. split; [by vm_compute|]. split; by vm_compute.
Qed.

End Detector.

(** ** Reconciler: which event list [fulltest.py] reports *)

Module Reconciler.

(** The console line of step [7]. *)
Inductive line :=
| ApiReturned (n : nat)
| ApiFetchFailed (e : exn).

(** The [try] / [except Exception] around the historical fetch.  The
    [print] of [len(api_events)] sits inside the [try]: an answer without a
    length is handled like a failed call. *)
Definition api_events (response : result value) : value * line :=
  match (v ← response; n ← len v; Ok (v, ApiReturned n)) with
  | Ok r => r
  | Raise e => (VList [], ApiFetchFailed e)
  end.

(** [events = api_events if api_events else collected_events] *)
Definition events (api_events : value) (collected_events : list value) : value :=
  if truthy api_events then api_events else VList collected_events.

(** *** The order and the de-duplication that the specification words *)

Definition seq_of (e : value) : option Z :=
  match e with
  | VDict d => match lookup_key d "seq" with Some (VInt n) => Some n | _ => None end
  | _ => None
  end.

(** Ascending by sequence number, events without one after all others. *)
Definition seq_le (a b : value) : bool :=
  match seq_of a, seq_of b with
  | Some x, Some y => x <=? y
  | Some _, None => true
  | None, Some _ => false
  | None, None => true
  end.

Fixpoint spec_insert_by_seq (e : value) (l : list value) : list value :=
  match l with
  | [] => [e]
  | x :: rest => if seq_le e x then e :: l else x :: spec_insert_by_seq e rest
  end.

(** A stable sort: events that compare equal keep their arrival order. *)
Definition spec_sorted_by_seq (l : list value) : list value :=
  foldr spec_insert_by_seq [] l.

Fixpoint seq_ascending (l : list value) : bool :=
  match l with
  | a :: (b :: _) as rest => seq_le a b && seq_ascending rest
  | _ => true
  end.

(** One event per sequence number, the first seen. *)
Fixpoint spec_dedup_by_seq (seen : list Z) (l : list value) : list value :=
  match l with
  | [] => []
  | e :: rest =>
    match seq_of e with
    | Some n =>
      if existsb (Z.eqb n) seen then spec_dedup_by_seq seen rest
      else e :: spec_dedup_by_seq (n :: seen) rest
    | None => e :: spec_dedup_by_seq seen rest
    end
  end.

(** How many events of a list carry sequence number [n]. *)
Definition seq_count (n : Z) (l : list value) : nat :=
  length (List.filter (λ e, match seq_of e with Some m => m =? n | None => false end) l).

Lemma spec_sorted_ascending_id l :
  seq_ascending l = true → spec_sorted_by_seq l = l.
Proof.
  induction l as [|a [|b l] IH]; [done..|].
  intros [Hab Hl]%andb_prop. unfold spec_sorted_by_seq in *.
  change (foldr spec_insert_by_seq [] (a :: b :: l))
    with (spec_insert_by_seq a (foldr spec_insert_by_seq [] (b :: l))).
  rewrite IH by done. simpl. by rewrite Hab.
Qed.

Definition ev (seq : Z) (etype : string) : value :=
  VDict [("seq", VInt seq); ("event_type", VStr etype);
         ("actor_user_id", VStr "system"); ("payload_json", VDict [])].

(** C1, as the script has it: a fetch that answers with a non-empty list
    makes that list, in the order in which the server sent it, the reported
    events, whatever the live buffer holds; the script does not sort, so the
    result is ascending by sequence number when the fetched list is. *)
Theorem rest_events_reported_as_fetched (l collected_events : list value) :
  l ≠ [] →
  events (api_events (Ok (VList l))).1 collected_events = VList l
  ∧ (seq_ascending l = true →
     events (api_events (Ok (VList l))).1 collected_events
     = VList (spec_sorted_by_seq l)).
Proof.
  intros Hl. assert (events (api_events (Ok (VList l))).1 collected_events = VList l) as ->.
  { destruct l; [done|]. reflexivity. }
  split; [done|]. intros Hasc. by rewrite spec_sorted_ascending_id.
Qed.

Lemma rest_events_reported_as_fetched_witness :
  events (api_events (Ok (VList [ev 1 "game.started"; ev 2 "public.chat"]))).1
         [ev 2 "public.chat"]
  = VList [ev 1 "game.started"; ev 2 "public.chat"]
  ∧ (seq_ascending [ev 1 "game.started"; ev 2 "public.chat"] = true →
     events (api_events (Ok (VList [ev 1 "game.started"; ev 2 "public.chat"]))).1
            [ev 2 "public.chat"]
     = VList (spec_sorted_by_seq [ev 1 "game.started"; ev 2 "public.chat"])).
Proof.
  apply (rest_events_reported_as_fetched
           [ev 1 "game.started"; ev 2 "public.chat"] [ev 2 "public.chat"]).
  discriminate.
Defined.

(** A fetched list that is out of order is reported out of order. *)
Lemma rest_events_not_sorted :
  events (api_events (Ok (VList [ev 2 "public.chat"; ev 1 "game.started"]))).1 []
  = VList [ev 2 "public.chat"; ev 1 "game.started"]
  ∧ spec_sorted_by_seq [ev 2 "public.chat"; ev 1 "game.started"]
    = [ev 1 "game.started"; ev 2 "public.chat"]
  ∧ events (api_events (Ok (VList [ev 2 "public.chat"; ev 1 "game.started"]))).1 []
    ≠ VList (spec_sorted_by_seq [ev 2 "public.chat"; ev 1 "game.started"]).
Proof. repeat split; [by vm_compute..|]. vm_compute. discriminate. Qed.

(** C2, as the script has it: a fetch that raised does not end the run;
    the reported events are the live buffer as collected, in arrival order;
    the script does not sort. *)
Theorem failed_fetch_reports_buffer_in_arrival_order
    (e : exn) (collected_events : list value) :
  events (api_events (Raise e)).1 collected_events = VList collected_events
  ∧ (api_events (Raise e)).2 = ApiFetchFailed e.
Proof. done. Qed.

Definition unsequenced (etype : string) : value :=
  VDict [("event_type", VStr etype)].

(** A buffer that arrived out of sequence order, with an event that has no
    sequence number in front, is reported as it arrived. *)
Lemma fallback_not_sorted :
  events (api_events (Raise URLError)).1
         [unsequenced "phase.day"; ev 5 "public.chat"; ev 3 "public.chat"]
  = VList [unsequenced "phase.day"; ev 5 "public.chat"; ev 3 "public.chat"]
  ∧ spec_sorted_by_seq [unsequenced "phase.day"; ev 5 "public.chat"; ev 3 "public.chat"]
    = [ev 3 "public.chat"; ev 5 "public.chat"; unsequenced "phase.day"]
  ∧ events (api_events (Raise URLError)).1
           [unsequenced "phase.day"; ev 5 "public.chat"; ev 3 "public.chat"]
    ≠ VList (spec_sorted_by_seq
               [unsequenced "phase.day"; ev 5 "public.chat"; ev 3 "public.chat"]).
Proof. repeat split; [by vm_compute..|]. vm_compute. discriminate. Qed.

(** C3, as the script has it: when the fetch failed or came back empty,
    the reported events are the live buffer with every delivery kept: a
    sequence number occurs in the report as often as it was delivered. *)
Theorem fallback_keeps_every_delivery
    (response : result value) (collected_events : list value) :
  (∃ e, response = Raise e) ∨ response = Ok (VList []) →
  ∃ reported,
    events (api_events response).1 collected_events = VList reported
    ∧ reported = collected_events
    ∧ ∀ n, seq_count n reported = seq_count n collected_events.
Proof.
  intros [[e ->] | ->]; by exists collected_events.
Qed.

Lemma fallback_keeps_every_delivery_witness :
  ∃ reported,
    events (api_events (Ok (VList []))).1 [ev 4 "public.chat"; ev 4 "public.chat"]
    = VList reported
    ∧ reported = [ev 4 "public.chat"; ev 4 "public.chat"]
    ∧ ∀ n, seq_count n reported
           = seq_count n [ev 4 "public.chat"; ev 4 "public.chat"].
Proof.
  apply (fallback_keeps_every_delivery (Ok (VList []))
           [ev 4 "public.chat"; ev 4 "public.chat"]).
  right. reflexivity.
Defined.

(** An event delivered twice is reported twice. *)
Lemma fallback_not_deduplicated :
  events (api_events (Raise URLError)).1
         [ev 1 "game.started"; ev 2 "public.chat"; ev 2 "public.chat"]
  = VList [ev 1 "game.started"; ev 2 "public.chat"; ev 2 "public.chat"]
  ∧ seq_count 2 [ev 1 "game.started"; ev 2 "public.chat"; ev 2 "public.chat"] = 2%nat
  ∧ spec_dedup_by_seq [] [ev 1 "game.started"; ev 2 "public.chat"; ev 2 "public.chat"]
    = [ev 1 "game.started"; ev 2 "public.chat"]
  ∧ events (api_events (Raise URLError)).1
           [ev 1 "game.started"; ev 2 "public.chat"; ev 2 "public.chat"]
    ≠ VList (spec_dedup_by_seq []
               [ev 1 "game.started"; ev 2 "public.chat"; ev 2 "public.chat"]).
Proof. repeat split; [by vm_compute..|]. vm_compute. discriminate. Qed.

End Reconciler.

(** ** Results: the display loop and the saved record of [fulltest.py] *)

Module Report.
Import Reconciler.

Section Runtime.

Variable json_loads : string → result value.
(** [str(v)] *)
Variable str : value → string.

(** One turn of the display loop: the entry that the turn appends to
    [chat_messages], if it appends one. *)
Definition chat_message (e : value) : result (option value) :=
  etype ← get e "event_type" (VStr "?");
  actor ← (a ← get e "actor_user_id" (VStr "?"); slice_to 20 a);
  seq ← get e "seq" (VStr "?");
  pjson ← get e "payload_json" (VStr "{}");
  let payload :=
    match pjson with
    | VStr s => match json_loads s with Ok v => v | Raise _ => VDict [] end
    | _ => pjson
    end in
  if eq_str etype "public.chat" then
    msg ← get payload "message" (VStr (str payload));
    _ ← slice_to 800 msg;
    Ok (Some (VDict [("seq", seq); ("actor", actor); ("message", msg)]))
  else Ok None.

Fixpoint chat_messages (events : list value) : result (list value) :=
  match events with
  | [] => Ok []
  | e :: rest =>
    m ← chat_message e;
    ms ← chat_messages rest;
    Ok (match m with Some entry => entry :: ms | None => ms end)
  end.

(** One turn of the second loop, over the live buffer. *)
Definition ws_chat (e : value) : result unit :=
  etype ← get e "event_type" (VStr "?");
  if eq_str etype "public.chat" then
    payload ← get e "payload" e;
    msg ← get payload "message" (VStr (str payload));
    _ ← slice_to 800 msg;
    Ok ()
  else Ok ().

Fixpoint ws_chats (collected_events : list value) : result unit :=
  match collected_events with
  | [] => Ok ()
  | e :: rest => _ ← ws_chat e; ws_chats rest
  end.

(** The script from the historical fetch to the record it saves.
    [elapsed] is [int(time.time() - start)] when the record is built. *)
Definition result (PROVIDER room_id : string) (response : Py.result value)
    (collected_events : list value) (elapsed : Z) : Py.result value :=
  let events := events (api_events response).1 collected_events in
  es ← iter events;
  chat_messages ← chat_messages es;
  _ ← (match chat_messages with [] => ws_chats collected_events | _ => Ok () end);
  total_events ← len events;
  Ok (VDict [("provider", VStr PROVIDER);
             ("room_id", VStr room_id);
             ("total_events", VInt (Z.of_nat total_events));
             ("chat_count", VInt (Z.of_nat (length chat_messages)));
             ("elapsed_seconds", VInt elapsed);
             ("messages", VList chat_messages)]).

(** The keys of a saved record. *)
Definition keys (r : Py.result value) : option (list string) :=
  match r with
  | Ok (VDict d) => Some (map fst d)
  | _ => None
  end.

Lemma result_keys PROVIDER room_id response collected_events elapsed :
  keys (result PROVIDER room_id response collected_events elapsed)
  = Some ["provider"; "room_id"; "total_events"; "chat_count";
          "elapsed_seconds"; "messages"]
  ∨ ∃ e, result PROVIDER room_id response collected_events elapsed = Raise e.
Proof.
  unfold result.
  destruct (iter _) as [es|]; [|by eauto]. simpl.
  destruct (chat_messages es) as [ms|]; [|by eauto]. simpl.
  destruct (match ms with [] => _ | _ => _ end); [|by eauto]. simpl.
  destruct (len _); [|by eauto]. simpl. by left.
Qed.

Lemma result_same_events PROVIDER room_id e l elapsed :
  l ≠ [] →
  result PROVIDER room_id (Raise e) l elapsed
  = result PROVIDER room_id (Ok (VList l)) l elapsed.
Proof. by destruct l. Qed.

(** An event whose actor is [null] stops the display loop. *)
Lemma chat_message_null_actor (d : dict) :
  lookup_key d "actor_user_id" = Some VNone →
  chat_message (VDict d) = Raise TypeError.
Proof. unfold chat_message. simpl. by intros ->. Qed.

End Runtime.

(** Who supplied the reported events, in the specification's words. *)
Inductive provenance := Authoritative | BestEffort.

(** C8, as the script has it: the saved record has the six fields
    [provider], [room_id], [total_events], [chat_count], [elapsed_seconds]
    and [messages] and no mark of where the events came from: a run whose
    fetch failed saves the record that a run with a successful fetch of the
    same events saves.  The failure shows on the console line of step [7]
    alone. *)
Theorem saved_record_has_no_provenance
    (json_loads : string → Py.result value) (str : value → string)
    (PROVIDER room_id : string) (e : exn) (l : list value) (elapsed : Z) :
  l ≠ [] →
  result json_loads str PROVIDER room_id (Raise e) l elapsed
  = result json_loads str PROVIDER room_id (Ok (VList l)) l elapsed
  ∧ (keys (result json_loads str PROVIDER room_id (Raise e) l elapsed)
     = Some ["provider"; "room_id"; "total_events"; "chat_count";
             "elapsed_seconds"; "messages"]
     ∨ ∃ e', result json_loads str PROVIDER room_id (Raise e) l elapsed = Raise e')
  ∧ (api_events (Raise e)).2 = ApiFetchFailed e
  ∧ (api_events (Ok (VList l))).2 = ApiReturned (length l).
Proof.
  intros Hl. split; [by apply result_same_events|].
  split; [apply result_keys|done].
Qed.

(** Stand-ins for the interpreter in the concrete runs below: a decoder
    that knows the one document the runs decode, and a [str] for the values
    they print. *)
Definition loads_fixture (s : string) : Py.result value :=
  if String.eqb s "{}" then Ok (VDict []) else Raise JSONDecodeError.

Definition str_fixture (v : value) : string :=
  match v with
  | VStr s => s
  | VInt n => pretty n
  | VNone => "None"
  | _ => "{}"
  end.

Definition started : value :=
  VDict [("seq", VInt 1); ("event_type", VStr "game.started");
         ("actor_user_id", VStr "system"); ("payload_json", VStr "{}")].

Lemma saved_record_has_no_provenance_witness :
  result loads_fixture str_fixture "gemini" "r1" (Raise URLError) [started] 61
  = result loads_fixture str_fixture "gemini" "r1" (Ok (VList [started])) [started] 61
  ∧ (keys (result loads_fixture str_fixture "gemini" "r1" (Raise URLError) [started] 61)
     = Some ["provider"; "room_id"; "total_events"; "chat_count";
             "elapsed_seconds"; "messages"]
     ∨ ∃ e', result loads_fixture str_fixture "gemini" "r1" (Raise URLError) [started] 61
             = Raise e')
  ∧ (api_events (Raise URLError)).2 = ApiFetchFailed URLError
  ∧ (api_events (Ok (VList [started]))).2 = ApiReturned (length [started]).
Proof.
  apply (saved_record_has_no_provenance loads_fixture str_fixture
           "gemini" "r1" URLError [started] 61).
  discriminate.
Defined.

Definition chat (seq : Z) (payload_json : string) : value :=
  VDict [("seq", VInt seq); ("event_type", VStr "public.chat");
         ("actor_user_id", VStr "autodm-0123456789abcdefghij");
         ("payload_json", VStr payload_json)].

(** A chat event whose payload does not decode is kept with the printed
    empty payload as its message, the actor cut to twenty characters. *)
Example result_with_chat :
  result loads_fixture str_fixture "deepseek" "r2" (Ok (VList [started; chat 2 "{"]))
         [] 12
  = Ok (VDict [("provider", VStr "deepseek"); ("room_id", VStr "r2");
               ("total_events", VInt 2); ("chat_count", VInt 1);
               ("elapsed_seconds", VInt 12);
               ("messages",
                VList [VDict [("seq", VInt 2);
                              ("actor", VStr "autodm-0123456789abc");
                              ("message", VStr "{}")]])]).
Proof. reflexivity. Qed.

(** A run without the REST log and a run with it save one and the same
    record, so nothing computed from the record can tell them apart. *)
Lemma fallback_record_unlabelled :
  result loads_fixture str_fixture "gemini" "r1" (Raise URLError) [started] 61
  = Ok (VDict [("provider", VStr "gemini"); ("room_id", VStr "r1");
               ("total_events", VInt 1); ("chat_count", VInt 0);
               ("elapsed_seconds", VInt 61); ("messages", VList [])])
  ∧ result loads_fixture str_fixture "gemini" "r1" (Ok (VList [started])) [] 61
    = result loads_fixture str_fixture "gemini" "r1" (Raise URLError) [started] 61
  ∧ ¬ ∃ label : Py.result value → provenance,
        label (result loads_fixture str_fixture "gemini" "r1"
                 (Ok (VList [started])) [] 61) = Authoritative
        ∧ label (result loads_fixture str_fixture "gemini" "r1"
                   (Raise URLError) [started] 61) = BestEffort.
Proof.
  assert (result loads_fixture str_fixture "gemini" "r1" (Ok (VList [started])) [] 61
          = result loads_fixture str_fixture "gemini" "r1" (Raise URLError) [started] 61)
    as Hsame by (by vm_compute).
  split; [by vm_compute|]. split; [done|].
  intros (label & Ha & Hb). rewrite Hsame in Ha. congruence.
Qed.

(** C9 at an event with a [null] actor: slicing [None] raises, the display
    loop is left by the exception and no record is built. *)
Theorem null_actor_aborts_run
    (json_loads : string → Py.result value) (str : value → string)
    (PROVIDER room_id : string) (collected_events : list value) (elapsed : Z) :
  let system_event :=
    VDict [("seq", VInt 1); ("event_type", VStr "phase.night");
           ("actor_user_id", VNone); ("payload_json", VStr "{}")] in
  chat_message json_loads str system_event = Raise TypeError
  ∧ result json_loads str PROVIDER room_id (Ok (VList [system_event]))
           collected_events elapsed
    = Raise TypeError.
Proof. done. Qed.

End Report.

(** ** Transport: subscribing and starting the game *)

Module Protocol.

(** What a script does on its WebSocket, in program order. *)
Inductive action :=
| Send (envelope : value)
| Sleep (millis : Z)
| Recv (frame : result value).   (* [json.loads(ws.recv())] *)

Definition is_kind (kind : string) (envelope : value) : bool :=
  match get envelope "type" VNone with
  | Ok ty => eq_str ty kind
  | Raise _ => false
  end.

(** *** [fulltest.on_open] *)

Definition subscribe (room_id : string) : value :=
  VDict [("type", VStr "subscribe");
         ("payload", VDict [("room_id", VStr room_id); ("last_seq", VInt 0)])].

Definition start_game (room_id : string) : value :=
  VDict [("type", VStr "command");
         ("payload", VDict [("room_id", VStr room_id); ("type", VStr "start_game")])].

Definition on_open (room_id : string) : list action :=
  [Send (subscribe room_id); Sleep 500; Send (start_game room_id)].

(** *** [test_debug.py], lines 43 to 60 *)

Definition subscribe_sub1 (rid : string) : value :=
  VDict [("type", VStr "subscribe"); ("request_id", VStr "sub1");
         ("payload", VDict [("room_id", VStr rid); ("last_seq", VInt 0)])].

Definition start_game_start1 (rid : string) : value :=
  VDict [("type", VStr "command"); ("request_id", VStr "start1");
         ("payload", VDict [("room_id", VStr rid); ("type", VStr "start_game")])].

(** The drain loop.  [incoming] lists what the successive
    [json.loads(ws.recv())] give: a decoded frame, or the exception of a
    timeout, a closed socket or a frame that is no JSON.  Past its end the
    server is silent and the receive times out.  The loop hands back the
    [events] list and what it did on the socket. *)
Fixpoint drain (incoming : list (result value)) (events : list value)
    : list value * list action :=
  match incoming with
  | [] => (events, [Recv (Raise WebSocketTimeoutException)])
  | Raise e :: _ => (events, [Recv (Raise e)])
  | Ok msg :: rest =>
    let events := events ++ [msg] in
    match get msg "type" VNone with
    | Raise _ => (events, [Recv (Ok msg)])
    | Ok ty =>
      if eq_str ty "subscribed" then (events, [Recv (Ok msg)])
      else
        let '(events, trace) := drain rest events in
        (events, Recv (Ok msg) :: trace)
    end
  end.

Definition subscribe_and_start (rid : string) (incoming : list (result value))
    : list action :=
  Send (subscribe_sub1 rid) :: (drain incoming []).2 ++ [Send (start_game_start1 rid)].

(** *** The rule of the specification *)

(** Every [command] is sent with the latest [subscribe] acknowledged. *)
Fixpoint commands_follow_ack (acked : bool) (trace : list action) : bool :=
  match trace with
  | [] => true
  | Send envelope :: rest =>
    if is_kind "command" envelope then acked && commands_follow_ack acked rest
    else if is_kind "subscribe" envelope then commands_follow_ack false rest
    else commands_follow_ack acked rest
  | Recv (Ok frame) :: rest =>
    commands_follow_ack (acked || is_kind "subscribed" frame) rest
  | _ :: rest => commands_follow_ack acked rest
  end.

(** The drain loop ends on an acknowledgment: a [subscribed] envelope comes
    in before any receive fails and before any frame that is not an
    object. *)
Fixpoint ack_arrives (incoming : list (result value)) : bool :=
  match incoming with
  | Ok (VDict d) :: rest =>
    eq_str (from_option id VNone (lookup_key d "type")) "subscribed"
    || ack_arrives rest
  | _ => false
  end.

Lemma drain_follow_ack incoming : ∀ events rid,
  commands_follow_ack false
    ((drain incoming events).2 ++ [Send (start_game_start1 rid)])
  = ack_arrives incoming.
Proof.
  induction incoming as [|[msg|e] incoming IH]; intros events rid; [done| |done].
  simpl. destruct msg as [| | | | | |d]; try done.
  unfold get.
  destruct (eq_str (from_option id VNone (lookup_key d "type")) "subscribed") eqn:Hty.
  - simpl. unfold is_kind, get. by rewrite Hty.
  - specialize (IH (events ++ [VDict d]) rid).
    destruct (drain incoming (events ++ [VDict d])) as [ev trace].
    simpl in *. unfold is_kind, get. by rewrite Hty.
Qed.

(** C7, as the scripts have it: [fulltest.py] sends the command half a
    second after the subscription without having read anything, so never
    after an acknowledgment; [test_debug.py] sends it when its drain loop
    ends, which is after a [subscribed] envelope if one arrives before a
    receive fails, and without one otherwise.  Both send the command in
    every case and neither marks the unacknowledged one. *)
Theorem command_sent_without_waiting_for_ack
    (room_id : string) (incoming : list (result value)) :
  commands_follow_ack false (on_open room_id) = false
  ∧ Send (start_game room_id) ∈ on_open room_id
  ∧ commands_follow_ack false (subscribe_and_start room_id incoming)
    = ack_arrives incoming
  ∧ Send (start_game_start1 room_id) ∈ subscribe_and_start room_id incoming.
Proof.
  split; [done|]. split.
  { unfold on_open. do 2 apply list_elem_of_further. apply list_elem_of_here. }
  split.
  - unfold subscribe_and_start. simpl. apply drain_follow_ack.
  - unfold subscribe_and_start. apply list_elem_of_further, elem_of_app.
    right. apply list_elem_of_here.
Qed.

(** With a silent server both scripts send the command all the same. *)
Lemma command_sent_unacknowledged :
  on_open "r1" = [Send (subscribe "r1"); Sleep 500; Send (start_game "r1")]
  ∧ commands_follow_ack false (on_open "r1") = false
  ∧ subscribe_and_start "r1" []
    = [Send (subscribe_sub1 "r1"); Recv (Raise WebSocketTimeoutException);
       Send (start_game_start1 "r1")]
  ∧ commands_follow_ack false (subscribe_and_start "r1" []) = false.
Proof. by vm_compute. Qed.

End Protocol.

(** ** The provider probes of [test_llm_api.py] *)

Module LLM.

Record prompt_data := PromptData { name : string; prompt : string }.

Record request := Request {
  url : string;
  data : value;                        (* the payload that [json.dumps] encodes *)
  headers : list (string * string)
}.

(** What [urlopen] and the reading of the answer come to.
    - [Responded body]: a response arrived; [body] is what
      [json.loads(resp.read().decode('utf-8'))] gives or raises.
    - [HTTPError code fp]: [urlopen] raised [HTTPError]; [fp] is [None] when
      the error has no body to read, else what [e.read().decode('utf-8')]
      gives or raises.
    - [Failed e]: [urlopen] raised another exception. *)
Inductive http_outcome :=
| Responded (body : result value)
| HTTPError (code : Z) (fp : option (result string))
| Failed (e : exn).

(** [needle in hay] for two strings.  On UTF-8 encodings the byte-wise
    search finds the same occurrences as the search by code points. *)
Fixpoint is_substring (needle hay : string) : bool :=
  String.prefix needle hay
  || match hay with
     | EmptyString => false
     | String _ rest => is_substring needle rest
     end.

(** ["k" in v] *)
Definition contains (k : string) (v : value) : result bool :=
  match v with
  | VDict d => Ok (match lookup_key d k with Some _ => true | None => false end)
  | VList l => Ok (existsb (λ x, eq_str x k) l)
  | VStr s => Ok (is_substring k s)
  | _ => Raise TypeError
  end.

(** [v["k"]] *)
Definition getitem (v : value) (k : string) : result value :=
  match v with
  | VDict d => match lookup_key d k with Some x => Ok x | None => Raise KeyError end
  | _ => Raise TypeError
  end.

(** [v[0]] *)
Definition getitem_0 (v : value) : result value :=
  match v with
  | VList (x :: _) => Ok x
  | VList [] => Raise IndexError
  | VStr s =>
    match code_points s with
    | g :: _ => Ok (VStr g)
    | [] => Raise IndexError
    end
  | VDict _ => Raise KeyError
  | _ => Raise TypeError
  end.

Fixpoint mapM {A B} (f : A → result B) (l : list A) : result (list B) :=
  match l with
  | [] => Ok []
  | x :: rest => y ← f x; ys ← mapM f rest; Ok (y :: ys)
  end.

(** [str.join] on the empty separator *)
Fixpoint join (items : list value) : result string :=
  match items with
  | [] => Ok EmptyString
  | VStr s :: rest => t ← join rest; Ok (s +:+ t)
  | _ => Raise TypeError
  end.

Definition GEMINI_BASE : string := "https://generativelanguage.googleapis.com/v1beta".
Definition GEMINI_MODEL : string := "gemini-3-flash-preview".
Definition DEEPSEEK_BASE : string := "https://api.deepseek.com/v1".
Definition DEEPSEEK_MODEL : string := "deepseek-chat".

Definition success_record (text tokens : value) (latency : Z) : value :=
  VDict [("success", VBool true); ("text", text); ("latency", VFloat latency);
         ("tokens", tokens); ("raw_status", VInt 200)].

Definition http_error_record (code : Z) (error_body : string) (latency : Z) : value :=
  VDict [("success", VBool false);
         ("error", VStr ("HTTP " +:+ pretty code +:+ ": " +:+ str_take 500 error_body));
         ("latency", VFloat latency); ("raw_status", VInt code)].

Definition failure_record (error : string) (latency : Z) : value :=
  VDict [("success", VBool false); ("error", VStr error);
         ("latency", VFloat latency); ("raw_status", VInt 0)].

Section Probes.

(** The credentials and the system prompt that the script holds as module
    constants. *)
Variables GEMINI_API_KEY DEEPSEEK_API_KEY SYSTEM_PROMPT : string.
(** The network, and the two readings of the clock: [start], and the one
    from which [latency] is taken. *)
Variable urlopen : request → http_outcome.
Variables start finish : Z.
(** [str(e)] of an exception, and of an [HTTPError] with the given code. *)
Variable exn_str : exn → string.
Variable http_error_str : Z → string.

Definition gemini_request (p : prompt_data) : request :=
  Request (GEMINI_BASE +:+ "/models/" +:+ GEMINI_MODEL
           +:+ ":generateContent?key=" +:+ GEMINI_API_KEY)
    (VDict [("contents",
             VList [VDict [("role", VStr "user");
                           ("parts", VList [VDict [("text", VStr (prompt p))]])]]);
            ("systemInstruction",
             VDict [("parts", VList [VDict [("text", VStr SYSTEM_PROMPT)]])]);
            ("generationConfig",
             VDict [("temperature", VFloat 700); ("maxOutputTokens", VInt 2048)])])
    [("Content-Type", "application/json")].

(** What [test_gemini] reads in the decoded body. *)
Definition gemini_text_tokens (body : value) : result (value * value) :=
  has_candidates ← contains "candidates" body;
  text ← (if has_candidates then
            candidates ← getitem body "candidates";
            n ← len candidates;
            if (0 <? n)%nat then
              first ← getitem_0 candidates;
              content ← get first "content" (VDict []);
              parts ← get content "parts" (VList []);
              ps ← iter parts;
              texts ← mapM (λ p, get p "text" (VStr EmptyString)) ps;
              s ← join texts;
              Ok (VStr s)
            else Ok (VStr EmptyString)
          else Ok (VStr EmptyString));
  has_usage ← contains "usageMetadata" body;
  tokens ← (if has_usage then getitem body "usageMetadata" else Ok (VDict []));
  Ok (text, tokens).

Definition test_gemini (p : prompt_data) : result value :=
  match urlopen (gemini_request p) with
  | Responded body =>
    match (b ← body; gemini_text_tokens b) with
    | Ok (text, tokens) => Ok (success_record text tokens (finish - start))
    | Raise e => Ok (failure_record (exn_str e) (finish - start))
    end
  | HTTPError code fp =>
    error_body ← match fp with Some r => r | None => Ok (http_error_str code) end;
    Ok (http_error_record code error_body (finish - start))
  | Failed e => Ok (failure_record (exn_str e) (finish - start))
  end.

Definition deepseek_request (p : prompt_data) : request :=
  Request (DEEPSEEK_BASE +:+ "/chat/completions")
    (VDict [("model", VStr DEEPSEEK_MODEL);
            ("messages",
             VList [VDict [("role", VStr "system"); ("content", VStr SYSTEM_PROMPT)];
                    VDict [("role", VStr "user"); ("content", VStr (prompt p))]]);
            ("temperature", VFloat 700); ("max_tokens", VInt 2048)])
    [("Content-Type", "application/json");
     ("Authorization", "Bearer " +:+ DEEPSEEK_API_KEY)].

(** What [test_deepseek] reads in the decoded body. *)
Definition deepseek_text_tokens (body : value) : result (value * value) :=
  has_choices ← contains "choices" body;
  text ← (if has_choices then
            choices ← getitem body "choices";
            n ← len choices;
            if (0 <? n)%nat then
              first ← getitem_0 choices;
              message ← get first "message" (VDict []);
              get message "content" (VStr EmptyString)
            else Ok (VStr EmptyString)
          else Ok (VStr EmptyString));
  has_usage ← contains "usage" body;
  tokens ← (if has_usage then getitem body "usage" else Ok (VDict []));
  Ok (text, tokens).

Definition test_deepseek (p : prompt_data) : result value :=
  match urlopen (deepseek_request p) with
  | Responded body =>
    match (b ← body; deepseek_text_tokens b) with
    | Ok (text, tokens) => Ok (success_record text tokens (finish - start))
    | Raise e => Ok (failure_record (exn_str e) (finish - start))
    end
  | HTTPError code fp =>
    error_body ← match fp with Some r => r | None => Ok (http_error_str code) end;
    Ok (http_error_record code error_body (finish - start))
  | Failed e => Ok (failure_record (exn_str e) (finish - start))
  end.

(** An outcome whose error body, if there is one, could be read. *)
Definition readable (o : http_outcome) : Prop :=
  match o with
  | HTTPError _ (Some (Raise _)) => False
  | _ => True
  end.

(** The shape of a returned record: a [success] flag and the [latency];
    [text] and [tokens] beside a true flag; after an HTTP error an [error]
    string that shows the status code. *)
Definition well_formed (o : http_outcome) (r : result value) : Prop :=
  ∃ d success,
    r = Ok (VDict d)
    ∧ lookup_key d "success" = Some (VBool success)
    ∧ lookup_key d "latency" = Some (VFloat (finish - start))
    ∧ (success = true →
       is_Some (lookup_key d "text") ∧ is_Some (lookup_key d "tokens"))
    ∧ (∀ code fp, o = HTTPError code fp →
       ∃ error, lookup_key d "error" = Some (VStr error)
                ∧ is_substring (pretty code) error = true).

Lemma prefix_app (a b : string) : String.prefix a (a +:+ b) = true.
Proof.
  induction a as [|c a IH]; simpl; [by destruct b|].
  by destruct (Ascii.ascii_dec c c).
Qed.

Lemma is_substring_prefix (a b : string) :
  String.prefix a b = true → is_substring a b = true.
Proof. intros H. destruct b; unfold is_substring; fold is_substring; by rewrite H. Qed.

Lemma is_substring_app (pre a post : string) :
  is_substring a (pre +:+ a +:+ post) = true.
Proof.
  induction pre as [|c pre IH].
  - change (EmptyString +:+ a +:+ post) with (a +:+ post).
    apply is_substring_prefix, prefix_app.
  - change (String c pre +:+ a +:+ post) with (String c (pre +:+ a +:+ post)).
    simpl is_substring. rewrite IH. apply orb_true_r.
Qed.

Lemma http_error_record_well_formed code fp error_body :
  well_formed (HTTPError code fp)
              (Ok (http_error_record code error_body (finish - start))).
Proof.
  eexists _, false. split; [done|]. do 3 (split; [done|]).
  intros code' fp' [= <- <-]. eexists. split; [done|].
  apply is_substring_app.
Qed.

Lemma test_gemini_well_formed p :
  readable (urlopen (gemini_request p)) →
  well_formed (urlopen (gemini_request p)) (test_gemini p).
Proof.
  unfold test_gemini. destruct (urlopen (gemini_request p)) as [body|code fp|e].
  - intros _. destruct (b ← body; gemini_text_tokens b) as [[text tokens]|e].
    + eexists _, true. by repeat split; eauto.
    + eexists _, false. by repeat split.
  - destruct fp as [[error_body|e]|]; [|done|]; intros _;
      apply http_error_record_well_formed.
  - intros _. eexists _, false. by repeat split.
Qed.

Lemma test_deepseek_well_formed p :
  readable (urlopen (deepseek_request p)) →
  well_formed (urlopen (deepseek_request p)) (test_deepseek p).
Proof.
  unfold test_deepseek. destruct (urlopen (deepseek_request p)) as [body|code fp|e].
  - intros _. destruct (b ← body; deepseek_text_tokens b) as [[text tokens]|e].
    + eexists _, true. by repeat split; eauto.
    + eexists _, false. by repeat split.
  - destruct fp as [[error_body|e]|]; [|done|]; intros _;
      apply http_error_record_well_formed.
  - intros _. eexists _, false. by repeat split.
Qed.

(** An exception raised while the [except HTTPError] clause reads the
    error body is handled by no clause and leaves the probe. *)
Lemma test_gemini_unreadable p code e :
  urlopen (gemini_request p) = HTTPError code (Some (Raise e)) →
  test_gemini p = Raise e.
Proof. unfold test_gemini. by intros ->. Qed.

Lemma test_deepseek_unreadable p code e :
  urlopen (deepseek_request p) = HTTPError code (Some (Raise e)) →
  test_deepseek p = Raise e.
Proof. unfold test_deepseek. by intros ->. Qed.

End Probes.

(** The probes on a usual answer and on a usual refusal. *)
Example test_gemini_answer :
  test_gemini "key" "prompt"
    (λ _, Responded (Ok (VDict
       [("candidates",
         VList [VDict [("content",
                        VDict [("parts", VList [VDict [("text", VStr "Night ")];
                                                VDict [("text", VStr "falls.")]])])]]);
        ("usageMetadata", VDict [("totalTokenCount", VInt 42)])])))
    1000 1850 (λ _, "error") (λ _, "HTTP Error") (PromptData "opening" "first night")
  = Ok (VDict [("success", VBool true); ("text", VStr "Night falls.");
               ("latency", VFloat 850);
               ("tokens", VDict [("totalTokenCount", VInt 42)]);
               ("raw_status", VInt 200)]).
Proof. reflexivity. Qed.

Example test_deepseek_refused :
  test_deepseek "key" "prompt"
    (λ _, HTTPError 401 (Some (Ok "bad key")))
    1000 1200 (λ _, "error") (λ _, "HTTP Error") (PromptData "opening" "first night")
  = Ok (VDict [("success", VBool false); ("error", VStr "HTTP 401: bad key");
               ("latency", VFloat 200); ("raw_status", VInt 401)]).
Proof. by vm_compute. Qed.

(** C10 at an HTTP error whose body is not UTF-8: both probes let the
    [UnicodeDecodeError] through to their caller and return no record. *)
Theorem undecodable_error_body_escapes_probes
    (GEMINI_API_KEY DEEPSEEK_API_KEY SYSTEM_PROMPT : string) (start finish : Z)
    (exn_str : exn → string) (http_error_str : Z → string) (p : prompt_data) :
  let urlopen := λ _ : request, HTTPError 500 (Some (Raise UnicodeDecodeError)) in
  test_gemini GEMINI_API_KEY SYSTEM_PROMPT urlopen start finish
              exn_str http_error_str p
  = Raise UnicodeDecodeError
  ∧ test_deepseek DEEPSEEK_API_KEY SYSTEM_PROMPT urlopen start finish
                  exn_str http_error_str p
    = Raise UnicodeDecodeError.
Proof. done. Qed.

End LLM.

(** * Further properties of the scripts *)

From Stdlib Require Import Ascii.

(** ** [fulltest.on_message]: the [game_started] flag *)

Module CollectorFacts.
Import Collector.

Section Handler.

Variable json_loads : string → result value.

(** An [event] envelope whose event is an object of type ["game.started"]. *)
Definition announces_start (message : string) : bool :=
  is_event_envelope json_loads message
  && match envelope_event json_loads message with
     | VDict d =>
       eq_str (from_option id (VStr "?") (lookup_key d "event_type")) "game.started"
     | _ => false
     end.

Lemma on_message_started st message :
  game_started (on_message json_loads st message)
  = game_started st || announces_start message.
Proof.
  unfold announces_start, is_event_envelope, envelope_event, on_message,
    on_message_body.
  destruct (json_loads message) as [[| | | | | |d]|]; simpl;
    try by rewrite orb_false_r.
  destruct (eq_str (from_option id VNone (lookup_key d "type")) "event"); simpl;
    [|by rewrite orb_false_r].
  destruct (from_option id (VDict []) (lookup_key d "payload"))
    as [| | | | | |evt]; simpl; try by rewrite orb_false_r.
  destruct (eq_str _ "game.started"); simpl;
    [by rewrite orb_true_r|by rewrite orb_false_r].
Qed.

Lemma deliver_started messages : ∀ st,
  game_started (deliver json_loads st messages)
  = game_started st || existsb announces_start messages.
Proof.
  induction messages as [|m messages IH]; intros st; simpl.
  - by rewrite orb_false_r.
  - rewrite IH, on_message_started. by rewrite orb_assoc.
Qed.

End Handler.

(** The flag is raised exactly when one of the frames delivered is an
    [event] envelope carrying a [game.started] event; no later frame lowers
    it again. *)
Theorem game_started_iff_announced
    (json_loads : string → result value) (before after : list string) :
  game_started (deliver json_loads init before)
  = existsb (announces_start json_loads) before
  ∧ (game_started (deliver json_loads init before) = true →
     game_started (deliver json_loads init (before ++ after)) = true).
Proof.
  rewrite !deliver_started. simpl. split; [done|].
  rewrite existsb_app. by intros ->.
Qed.

End CollectorFacts.

(** ** The polling loop on any buffer *)

Module DetectorFacts.
Import Detector.

Definition is_object (v : value) : bool :=
  match v with VDict _ => true | _ => false end.

Definition is_chat_value (v : value) : bool :=
  match v with VDict d => is_chat d | _ => false end.

Lemma chat_count_cases (collected_events : list value) :
  chat_count collected_events
  = if forallb is_object collected_events
    then Ok (length (List.filter is_chat_value collected_events))
    else Raise AttributeError.
Proof.
  induction collected_events as [|e rest IH]; [done|].
  simpl. destruct e as [| | | | | |d]; try done.
  simpl. rewrite IH. destruct (forallb is_object rest); [|done].
  simpl. fold (is_chat d). by destruct (is_chat d).
Qed.

(** The count is the number of chat events when every entry of the buffer
    is an object, and so never more than the length of the buffer; one
    entry that is not an object makes the count raise. *)
Theorem chat_count_spec (collected_events : list value) :
  chat_count collected_events
  = (if forallb is_object collected_events
     then Ok (length (List.filter is_chat_value collected_events))
     else Raise AttributeError)
  ∧ ∀ n, chat_count collected_events = Ok n → (n ≤ length collected_events)%nat.
Proof.
  split; [apply chat_count_cases|].
  rewrite chat_count_cases. destruct (forallb _ _); [|done].
  intros n [= <-]. apply List.filter_length_le.
Qed.

Lemma chat_count_raises collected_events e :
  chat_count collected_events = Raise e → e = AttributeError.
Proof.
  rewrite chat_count_cases. destruct (forallb _ _); [done|]. by intros [= <-].
Qed.

(** What the loop can come to, entered at a poll time [now]. *)
Definition exit_within (now : Z) (x : loop_exit) : Prop :=
  match x with
  | Quorum seen leave =>
    now + poll_interval ≤ seen ≤ timeout ∧ leave = seen + grace
    ∧ seen `mod` poll_interval = 0
  | TimedOut leave => leave = timeout
  | Crashed e at_ =>
    e = AttributeError ∧ now + poll_interval ≤ at_ ≤ timeout
    ∧ at_ `mod` poll_interval = 0
  | OutOfFuel => False
  end.

Lemma exit_within_later now x :
  exit_within (now + poll_interval) x → exit_within now x.
Proof.
  destruct x; simpl; unfold poll_interval; [|done| |done]; intuition lia.
Qed.

Lemma poll_exit_within (s : stream) : ∀ (fuel : nat) (k : Z),
  0 ≤ k → timeout ≤ poll_interval * (k + Z.of_nat fuel) →
  poll_interval * k ≤ timeout →
  exit_within (poll_interval * k) (poll (S fuel) s (poll_interval * k)).
Proof.
  induction fuel as [|fuel IH]; intros k Hk Hfuel Hnow; rewrite poll_step.
  - destruct (Z.ltb_spec (poll_interval * k) timeout); [lia|].
    simpl. lia.
  - destruct (Z.ltb_spec (poll_interval * k) timeout) as [Hlt|Hge];
      [|simpl; lia].
    assert (poll_interval * k + poll_interval = poll_interval * (k + 1)) as Hnext
      by lia.
    assert (poll_interval * (k + 1) ≤ timeout) as Hle.
    { unfold poll_interval, timeout in *. lia. }
    assert ((poll_interval * (k + 1)) `mod` poll_interval = 0) as Hmod.
    { rewrite Z.mul_comm. by apply Z.mod_mul. }
    rewrite !Hnext.
    destruct (chat_count _) as [c|e] eqn:Hc.
    + destruct (quorum <=? c)%nat.
      * simpl. lia.
      * apply exit_within_later. rewrite Hnext. apply IH; lia.
    + apply chat_count_raises in Hc as ->. simpl. split; [done|lia].
Qed.

(** Whatever arrives, the loop is left: by the quorum at one of the polls
    from [poll_interval] to [timeout], one grace period later; by the
    clock at exactly [timeout]; or by an [AttributeError] at one of those
    polls.  Collection never lasts longer than [timeout + grace]. *)
Theorem collection_loop_exits_in_time (s : stream) :
  match collection_loop s with
  | Quorum seen leave =>
    poll_interval ≤ seen ≤ timeout ∧ seen `mod` poll_interval = 0
    ∧ leave = seen + grace ∧ leave ≤ timeout + grace
  | TimedOut leave => leave = timeout
  | Crashed e at_ =>
    e = AttributeError ∧ poll_interval ≤ at_ ≤ timeout
    ∧ at_ `mod` poll_interval = 0
  | OutOfFuel => False
  end.
Proof.
  pose proof (poll_exit_within s (Z.to_nat (timeout / poll_interval)) 0) as H.
  change (poll_interval * 0) with 0 in H.
  change (poll (S (Z.to_nat (timeout / poll_interval))) s 0)
    with (collection_loop s) in H.
  specialize (H ltac:(lia) ltac:(by vm_compute) ltac:(by vm_compute)).
  destruct (collection_loop s); simpl in *;
    unfold poll_interval, timeout, grace in *; intuition lia.
Qed.

Lemma least_true (P : nat → bool) : ∀ n,
  P n = true →
  ∃ m, (m ≤ n)%nat ∧ P m = true ∧ ∀ i, (i < m)%nat → P i = false.
Proof.
  induction n as [n IH] using lt_wf_ind. intros Hn.
  destruct (existsb P (seq 0 n)) eqn:Hex.
  - apply existsb_exists in Hex as (i & [_ Hi]%in_seq & HPi).
    destruct (IH i) as (m & Hm & HPm & Hleast); [lia|done|].
    exists m. split; [lia|done].
  - exists n. split; [done|]. split; [done|]. intros i Hi.
    destruct (P i) eqn:HPi; [|done].
    assert (existsb P (seq 0 n) = true) as Hcontra; [|congruence].
    apply existsb_exists. exists i. split; [|done]. apply in_seq. lia.
Qed.

(** On a stream of Game Events the loop is left through the quorum branch
    exactly when four chat events have arrived by [timeout], at the first
    poll that finds four of them; with fewer than four by then it is left
    by the clock at [timeout], however many arrive later. *)
Theorem quorum_exit_iff_four_chats_in_time (s : list (Z * dict)) :
  ((quorum ≤ arrived_by timeout (chat_times s))%nat →
   ∃ seen,
     collection_loop (events s) = Quorum seen (seen + grace)
     ∧ (quorum ≤ arrived_by seen (chat_times s))%nat
     ∧ ∀ k, 0 < k → poll_interval * k < seen →
         (arrived_by (poll_interval * k) (chat_times s) < quorum)%nat)
  ∧ ((arrived_by timeout (chat_times s) < quorum)%nat →
     collection_loop (events s) = TimedOut timeout).
Proof.
  split.
  - intros Hfour.
    set (P := λ i : nat,
           (quorum <=? arrived_by (poll_interval * (Z.of_nat i + 1)) (chat_times s))%nat).
    destruct (least_true P 29) as (m & Hm & HPm & Hleast).
    { unfold P. apply Nat.leb_le. exact Hfour. }
    unfold P in HPm. apply Nat.leb_le in HPm.
    exists (0 + poll_interval * (Z.of_nat m + 1)). split; [|split].
    + apply poll_finds_quorum.
      * change (Z.to_nat (timeout / poll_interval)) with 30%nat. lia.
      * unfold poll_interval, timeout. lia.
      * intros i Hi. eexists. split; [apply chat_count_events|].
        specialize (Hleast i Hi). unfold P in Hleast.
        apply Nat.leb_gt in Hleast. exact Hleast.
      * eexists. split; [apply chat_count_events|]. exact HPm.
    + exact HPm.
    + intros k Hk Hlt. specialize (Hleast (Z.to_nat (k - 1))).
      unfold P in Hleast. rewrite Nat.leb_gt in Hleast.
      replace (Z.of_nat (Z.to_nat (k - 1)) + 1) with k in Hleast by lia.
      apply Hleast. unfold poll_interval in *. lia.
  - intros Hfew. unfold collection_loop.
    change (S (Z.to_nat (timeout / poll_interval))) with (30 + 1)%nat.
    rewrite poll_skip.
    + done.
    + intros _. unfold poll_interval, timeout. lia.
    + intros i Hi. eexists. split; [apply chat_count_events|].
      eapply Nat.le_lt_trans; [|exact Hfew].
      apply arrived_by_mono. unfold poll_interval, timeout. lia.
Qed.

Lemma forallb_buffer_at (s : stream) u v t :
  (u, v) ∈ s → u ≤ t → is_object v = false →
  forallb is_object (buffer_at s t) = false.
Proof.
  intros Hin Hu Hv. unfold buffer_at.
  induction s as [|[u' v'] s IH]; [by apply elem_of_nil in Hin|].
  simpl. apply elem_of_cons in Hin as [[= <- <-]|Hin].
  - assert ((u <=? t) = true) as -> by (by apply Z.leb_le). simpl. by rewrite Hv.
  - destruct (u' <=? t); [|by apply IH]. simpl. rewrite IH by done.
    apply andb_false_r.
Qed.

(** An event that is not an object, once in the buffer, ends the script:
    with no quorum found at the polls before, the first poll after its
    arrival raises [AttributeError] out of the loop. *)
Theorem non_object_event_crashes_loop (s : stream) (k : nat) (u : Z) (v : value) :
  (k < 30)%nat →
  (u, v) ∈ s → is_object v = false → u ≤ poll_interval * (Z.of_nat k + 1) →
  (∀ i, (i < k)%nat →
     ∃ c, chat_count (buffer_at s (poll_interval * (Z.of_nat i + 1))) = Ok c
          ∧ (c < quorum)%nat) →
  collection_loop s = Crashed AttributeError (poll_interval * (Z.of_nat k + 1)).
Proof.
  intros Hk Hin Hv Hu Hbefore. unfold collection_loop.
  change (S (Z.to_nat (timeout / poll_interval))) with 31%nat.
  replace 31%nat with (k + S (30 - k))%nat by lia.
  rewrite poll_skip.
  - rewrite poll_step.
    assert ((0 + poll_interval * Z.of_nat k <? timeout) = true) as ->.
    { apply Z.ltb_lt. unfold poll_interval, timeout. lia. }
    replace (0 + poll_interval * Z.of_nat k + poll_interval)
      with (poll_interval * (Z.of_nat k + 1)) by lia.
    rewrite chat_count_cases, (forallb_buffer_at s u v) by done. done.
  - intros _. unfold poll_interval, timeout. lia.
  - intros i Hi. destruct (Hbefore i Hi) as (c & Hc & Hlt).
    exists c. split; [|done]. rewrite <- Hc. do 2 f_equal.
Qed.

Lemma non_object_event_crashes_loop_witness :
  collection_loop [(1200, VDict [("event_type", VStr "game.started")]); (3100, VInt 7)]
  = Crashed AttributeError (poll_interval * (Z.of_nat 1 + 1)).
Proof.
  apply (non_object_event_crashes_loop
           [(1200, VDict [("event_type", VStr "game.started")]); (3100, VInt 7)]
           1 3100 (VInt 7)).
  - lia.
  - apply list_elem_of_further, list_elem_of_here.
  - reflexivity.
  - unfold poll_interval. simpl. lia.
  - intros i Hi. assert (i = 0%nat) as -> by lia. exists 0%nat.
    split; [reflexivity|]. unfold quorum. lia.
Defined.

End DetectorFacts.

(** ** The saved record of [fulltest.py] *)

Module ReportFacts.
Import Reconciler Report.

(** [e.get('event_type', '?') == 'public.chat'] *)
Definition is_chat_event (e : value) : bool :=
  match get e "event_type" (VStr "?") with
  | Ok ty => eq_str ty "public.chat"
  | Raise _ => false
  end.

(** [e.get('seq', '?')] of an object. *)
Definition seq_shown (e : value) : value :=
  match get e "seq" (VStr "?") with Ok seq => seq | Raise _ => VStr "?" end.

(** A string of at most [n] characters, or a list of at most [n] items. *)
Definition at_most (n : nat) (v : value) : Prop :=
  match v with
  | VStr s => (str_len s ≤ n)%nat
  | VList l => (length l ≤ n)%nat
  | _ => False
  end.

Definition sliceable (v : value) : Prop :=
  match v with VStr _ | VList _ => True | _ => False end.

(** [r[k]] of a record. *)
Definition lookup_key_of (r : value) (k : string) : option value :=
  match r with VDict d => lookup_key d k | _ => None end.

(** An entry of [chat_messages]. *)
Definition entry_of (e : value) (m : value) : Prop :=
  ∃ actor msg,
    m = VDict [("seq", seq_shown e); ("actor", actor); ("message", msg)]
    ∧ at_most 20 actor ∧ sliceable msg.

Lemma slice_to_at_most n v cut : slice_to n v = Ok cut → at_most n cut.
Proof.
  destruct v; try done; intros [= <-]; simpl.
  - rewrite str_len_take. lia.
  - rewrite length_take. lia.
Qed.

Lemma slice_to_sliceable n v cut : slice_to n v = Ok cut → sliceable v.
Proof. by destruct v. Qed.

Section Runtime.

Variable json_loads : string → Py.result value.
Variable str : value → string.

Lemma chat_message_inv e o :
  chat_message json_loads str e = Ok o →
  match o with
  | Some m => is_chat_event e = true ∧ entry_of e m
  | None => is_chat_event e = false
  end.
Proof.
  unfold chat_message, is_chat_event, entry_of, seq_shown.
  destruct e as [| | | | | |d]; try done. simpl.
  destruct (slice_to 20 _) as [actor|] eqn:Hactor; [|done]. simpl.
  destruct (eq_str _ "public.chat"); [|by intros [= <-]].
  destruct (get _ "message" _) as [msg|]; [|done]. simpl.
  destruct (slice_to 800 msg) as [cut|] eqn:Hmsg; [|done]. simpl.
  intros [= <-]. split; [done|]. exists actor, msg.
  split; [done|]. split.
  - by eapply slice_to_at_most.
  - by eapply slice_to_sliceable.
Qed.

Lemma chat_messages_inv es : ∀ ms,
  chat_messages json_loads str es = Ok ms →
  Forall2 entry_of (List.filter is_chat_event es) ms.
Proof.
  induction es as [|e es IH]; intros ms; simpl.
  - intros [= <-]. constructor.
  - destruct (chat_message json_loads str e) as [o|] eqn:He; [|done]. simpl.
    destruct (chat_messages json_loads str es) as [ms'|]; [|done]. simpl.
    apply chat_message_inv in He. intros [= <-].
    destruct o as [m|].
    + destruct He as [-> Hm]. constructor; [done|by apply IH].
    + rewrite He. by apply IH.
Qed.

Lemma chat_messages_not_object v es :
  match v with VDict _ => False | _ => True end →
  chat_messages json_loads str (v :: es) = Raise AttributeError.
Proof. by destruct v. Qed.

Lemma events_cases (a : value) (collected_events : list value) :
  events a collected_events = VList collected_events
  ∨ truthy (events a collected_events) = true.
Proof. unfold events. destruct (truthy a) eqn:Ha; [by right|by left]. Qed.

Lemma result_inv PROVIDER room_id response collected_events elapsed r :
  result json_loads str PROVIDER room_id response collected_events elapsed = Ok r →
  ∃ reported ms,
    events (api_events response).1 collected_events = VList reported
    ∧ chat_messages json_loads str reported = Ok ms
    ∧ r = VDict [("provider", VStr PROVIDER);
                 ("room_id", VStr room_id);
                 ("total_events", VInt (Z.of_nat (length reported)));
                 ("chat_count", VInt (Z.of_nat (length ms)));
                 ("elapsed_seconds", VInt elapsed);
                 ("messages", VList ms)].
Proof.
  unfold result.
  pose proof (events_cases (api_events response).1 collected_events) as Hcases.
  destruct (events (api_events response).1 collected_events)
    as [| | | |s|l|d]; try done; simpl.
  - destruct Hcases as [?|Hs]; [done|]. destruct s as [|c s]; [done|].
    unfold chars. by destruct (code_points_cons c s) as (g & gs & ->).
  - destruct (chat_messages json_loads str l) as [ms|] eqn:Hms; [|done]. simpl.
    destruct (match ms with [] => _ | _ => _ end); [|done]. simpl.
    intros [= <-]. by exists l, ms.
  - destruct Hcases as [?|Hd]; [done|]. by destruct d.
Qed.

End Runtime.

(** An answer of the events endpoint that is a non-empty object or string
    instead of a list is taken for the event list; walking it yields
    strings, and the run ends with [AttributeError] on the first of them,
    nothing saved. *)
Theorem non_list_answer_aborts
    (json_loads : string → Py.result value) (str : value → string)
    (PROVIDER room_id : string) (answer : value)
    (collected_events : list value) (elapsed : Z) :
  match answer with
  | VDict (_ :: _) | VStr (String _ _) => True
  | _ => False
  end →
  result json_loads str PROVIDER room_id (Ok answer) collected_events elapsed
  = Raise AttributeError.
Proof.
  destruct answer as [| | | |[|c s]|l|[|kv d]]; try done. intros _.
  unfold result. simpl. unfold chars.
  by destruct (code_points_cons c s) as (g & gs & ->).
Qed.

Lemma non_list_answer_aborts_witness :
  result loads_fixture str_fixture "gemini" "r1"
         (Ok (VDict [("error", VStr "room not found")])) [started] 61
  = Raise AttributeError.
Proof.
  apply (non_list_answer_aborts loads_fixture str_fixture "gemini" "r1"
           (VDict [("error", VStr "room not found")]) [started] 61).
  exact I.
Defined.

(** An actor of seven characters in twenty-one bytes is not cut. *)
Example wide_actor_kept_whole :
  chat_message loads_fixture str_fixture
    (VDict [("seq", VInt 2); ("event_type", VStr "public.chat");
            ("actor_user_id", VStr "说书人说书人说"); ("payload_json", VStr "{}")])
  = Ok (Some (VDict [("seq", VInt 2); ("actor", VStr "说书人说书人说");
                     ("message", VStr "{}")])).
Proof. by vm_compute. Qed.

(** In every record that is saved, [total_events] is the length of the
    reported list, [chat_count] is the length of [messages], which is the
    number of [public.chat] events reported and so never more than
    [total_events]. *)
Theorem saved_counts
    (json_loads : string → Py.result value) (str : value → string)
    (PROVIDER room_id : string) (response : Py.result value)
    (collected_events : list value) (elapsed : Z) (r : value) :
  result json_loads str PROVIDER room_id response collected_events elapsed = Ok r →
  ∃ reported ms,
    events (api_events response).1 collected_events = VList reported
    ∧ lookup_key_of r "total_events" = Some (VInt (Z.of_nat (length reported)))
    ∧ lookup_key_of r "chat_count" = Some (VInt (Z.of_nat (length ms)))
    ∧ lookup_key_of r "messages" = Some (VList ms)
    ∧ length ms = length (List.filter is_chat_event reported)
    ∧ (length ms ≤ length reported)%nat.
Proof.
  intros (reported & ms & Hev & Hms & ->)%result_inv.
  exists reported, ms. apply chat_messages_inv in Hms.
  apply Forall2_length in Hms.
  repeat split; try done.
  rewrite <- Hms. apply List.filter_length_le.
Qed.

Lemma saved_counts_witness :
  ∃ reported ms,
    events (api_events (Ok (VList [started; chat 2 "{"]))).1 [] = VList reported
    ∧ lookup_key_of
        (VDict [("provider", VStr "deepseek"); ("room_id", VStr "r2");
                ("total_events", VInt 2); ("chat_count", VInt 1);
                ("elapsed_seconds", VInt 12);
                ("messages",
                 VList [VDict [("seq", VInt 2);
                               ("actor", VStr "autodm-0123456789abc");
                               ("message", VStr "{}")]])])
        "total_events"
      = Some (VInt (Z.of_nat (length reported)))
    ∧ lookup_key_of
        (VDict [("provider", VStr "deepseek"); ("room_id", VStr "r2");
                ("total_events", VInt 2); ("chat_count", VInt 1);
                ("elapsed_seconds", VInt 12);
                ("messages",
                 VList [VDict [("seq", VInt 2);
                               ("actor", VStr "autodm-0123456789abc");
                               ("message", VStr "{}")]])])
        "chat_count"
      = Some (VInt (Z.of_nat (length ms)))
    ∧ lookup_key_of
        (VDict [("provider", VStr "deepseek"); ("room_id", VStr "r2");
                ("total_events", VInt 2); ("chat_count", VInt 1);
                ("elapsed_seconds", VInt 12);
                ("messages",
                 VList [VDict [("seq", VInt 2);
                               ("actor", VStr "autodm-0123456789abc");
                               ("message", VStr "{}")]])])
        "messages"
      = Some (VList ms)
    ∧ length ms = length (List.filter is_chat_event reported)
    ∧ (length ms ≤ length reported)%nat.
Proof.
  apply (saved_counts loads_fixture str_fixture "deepseek" "r2"
           (Ok (VList [started; chat 2 "{"])) [] 12).
  reflexivity.
Defined.

(** The saved messages are the chat events reported, in their order: each
    entry has the three fields [seq], [actor] and [message], with the
    event's [seq] (["?"] without one), an actor of at most twenty
    characters and a message that is a string or a list. *)
Theorem saved_messages_follow_chat_events
    (json_loads : string → Py.result value) (str : value → string)
    (PROVIDER room_id : string) (response : Py.result value)
    (collected_events : list value) (elapsed : Z) (r : value) :
  result json_loads str PROVIDER room_id response collected_events elapsed = Ok r →
  ∃ reported ms,
    events (api_events response).1 collected_events = VList reported
    ∧ lookup_key_of r "messages" = Some (VList ms)
    ∧ Forall2 entry_of (List.filter is_chat_event reported) ms.
Proof.
  intros (reported & ms & Hev & Hms & ->)%result_inv.
  exists reported, ms. by apply chat_messages_inv in Hms.
Qed.

Lemma saved_messages_follow_chat_events_witness :
  ∃ reported ms,
    events (api_events (Raise URLError)).1 [chat 7 "{}"; started] = VList reported
    ∧ lookup_key_of
        (VDict [("provider", VStr "gemini"); ("room_id", VStr "r1");
                ("total_events", VInt 2); ("chat_count", VInt 1);
                ("elapsed_seconds", VInt 30);
                ("messages",
                 VList [VDict [("seq", VInt 7);
                               ("actor", VStr "autodm-0123456789abc");
                               ("message", VStr "{}")]])])
        "messages"
      = Some (VList ms)
    ∧ Forall2 entry_of (List.filter is_chat_event reported) ms.
Proof.
  apply (saved_messages_follow_chat_events loads_fixture str_fixture "gemini" "r1"
           (Raise URLError) [chat 7 "{}"; started] 30).
  reflexivity.
Defined.

(** Once the fetched list holds a chat event, the live buffer has no part
    in the outcome of the run: the record saved, or the exception raised,
    is the same for every buffer. *)
Theorem buffer_ignored_when_rest_has_chat
    (json_loads : string → Py.result value) (str : value → string)
    (PROVIDER room_id : string) (l buffer buffer' : list value) (elapsed : Z) :
  existsb is_chat_event l = true →
  result json_loads str PROVIDER room_id (Ok (VList l)) buffer elapsed
  = result json_loads str PROVIDER room_id (Ok (VList l)) buffer' elapsed.
Proof.
  intros Hchat.
  assert (∀ buf,
    result json_loads str PROVIDER room_id (Ok (VList l)) buf elapsed
    = bind (chat_messages json_loads str l) (λ ms,
        bind (match ms with [] => ws_chats str buf | _ => Ok () end) (λ _,
          Ok (VDict [("provider", VStr PROVIDER);
                     ("room_id", VStr room_id);
                     ("total_events", VInt (Z.of_nat (length l)));
                     ("chat_count", VInt (Z.of_nat (length ms)));
                     ("elapsed_seconds", VInt elapsed);
                     ("messages", VList ms)])))) as Heq.
  { intros buf. by destruct l. }
  rewrite !Heq.
  destruct (chat_messages json_loads str l) as [ms|] eqn:Hms; [|done].
  apply chat_messages_inv in Hms.
  destruct ms as [|m ms]; [|done].
  apply Forall2_nil_inv_r in Hms.
  apply existsb_exists in Hchat as (x & Hx & Hchat).
  assert (x ∈ List.filter is_chat_event l) as Hin.
  { apply list_elem_of_In, filter_In. by split. }
  rewrite Hms in Hin. by apply elem_of_nil in Hin.
Qed.

Lemma buffer_ignored_when_rest_has_chat_witness :
  result loads_fixture str_fixture "gemini" "r1" (Ok (VList [chat 2 "{}"]))
         [VInt 7] 30
  = result loads_fixture str_fixture "gemini" "r1" (Ok (VList [chat 2 "{}"]))
           [] 30.
Proof.
  apply (buffer_ignored_when_rest_has_chat loads_fixture str_fixture "gemini" "r1"
           [chat 2 "{}"] [VInt 7] [] 30).
  reflexivity.
Defined.

End ReportFacts.

(** ** Printing scripts *)

Module Console.

(** How a piece of script ends: normally, or by an exception.  Formatting
    can raise [ValueError], which the code modelled above never meets. *)
Inductive status (A : Type) :=
| Done (a : A)
| Raised (e : exn)
| RaisedValueError.
Arguments Done {A} a.
Arguments Raised {A} e.
Arguments RaisedValueError {A}.

(** A piece of script that prints: the lines it has printed, in order, and
    how it ended. *)
Definition out (A : Type) : Type := list string * status A.

Definition ret {A} (a : A) : out A := ([], Done a).

Definition lift {A} (r : result A) : out A :=
  ([], match r with Ok a => Done a | Raise e => Raised e end).

Definition print (line : string) : out unit := ([line], Done ()).

Definition bind {A B} (m : out A) (k : A → out B) : out B :=
  match m.2 with
  | Done a => let r := k a in (m.1 ++ r.1, r.2)
  | Raised e => (m.1, Raised e)
  | RaisedValueError => (m.1, RaisedValueError)
  end.

Lemma bind_done {A B} (m : out A) (k : A → out B) lines a lines' st :
  m = (lines, Done a) → k a = (lines', st) → bind m k = (lines ++ lines', st).
Proof. intros -> Hk. unfold bind. simpl. by rewrite Hk. Qed.

Lemma bind_raised {A B} (m : out A) (k : A → out B) lines e :
  m = (lines, Raised e) → bind m k = (lines, Raised e).
Proof. by intros ->. Qed.

Lemma bind_lift_ok {A B} (r : result A) (k : A → out B) a :
  r = Ok a → bind (lift r) k = k a.
Proof. intros ->. unfold bind. simpl. by destruct (k a). Qed.

Lemma bind_done_status {A B} (m : out A) (k : A → out B) lines a st :
  m = (lines, Done a) → (k a).2 = st → (bind m k).2 = st.
Proof. by intros -> <-. Qed.

Lemma bind_raised_status {A B} (m : out A) (k : A → out B) e :
  m.2 = Raised e → (bind m k).2 = Raised e.
Proof. unfold bind. by intros ->. Qed.

Declare Scope console_scope.
Delimit Scope console_scope with console.
Notation "x ⇐ m ; k" := (bind m (λ x, k))
  (at level 20, m at level 100, k at level 200, only parsing) : console_scope.

(** [for x in l: f(x)] *)
Fixpoint for_each {A} (f : A → out unit) (l : list A) : out unit :=
  match l with
  | [] => ret ()
  | x :: rest => bind (f x) (λ _, for_each f rest)
  end.

Definition nl : string := String (Ascii.ascii_of_nat 10) EmptyString.

Lemma for_each_done {A} (f : A → out unit) (line : A → list string) l :
  Forall (λ x, f x = (line x, Done ())) l →
  for_each f l = (concat (map line l), Done ()).
Proof.
  induction 1 as [|x l Hx _ IH]; [done|].
  simpl. by erewrite bind_done.
Qed.

End Console.

(** ** [fetch_events.py] *)

Module FetchEvents.
Import Console.
Open Scope console_scope.

Section Runtime.

Variable json_loads : string → result value.
Variable str : value → string.

(** The line that names an event. *)
Definition headline (seq etype actor : value) : string :=
  "[" +:+ str seq +:+ "] " +:+ str etype +:+ " by " +:+ str actor.

(** One turn of the loop. *)
Definition show (e : value) : out unit :=
  etype ⇐ lift (get e "event_type" (VStr "?"));
  actor ⇐ lift (get e "actor_user_id" (VStr "?"));
  seq ⇐ lift (get e "seq" (VStr "?"));
  pjson ⇐ lift (get e "payload_json" (VStr "{}"));
  let payload :=
    match pjson with
    | VStr s => match json_loads s with Ok v => v | Raise _ => pjson end
    | _ => pjson
    end in
  if eq_str etype "public.chat" then
    msg ⇐ lift (get payload "message" (VStr EmptyString));
    _ ⇐ print (nl +:+ headline seq etype actor +:+ ":");
    cut ⇐ lift (slice_to 500 msg);
    print ("  " +:+ str cut)
  else print (headline seq etype actor).

(** The script from the answer of the events endpoint on; the call is not
    guarded, what it raises ends the script. *)
Definition fetch_events (response : result value) : out unit :=
  events ⇐ lift response;
  n ⇐ lift (len events);
  _ ⇐ print ("Total events: " +:+ pretty (Z.of_nat n));
  es ⇐ lift (iter events);
  for_each show es.

(** The line of an event that is an object. *)
Definition line_of (e : value) : string :=
  match e with
  | VDict d =>
    headline (from_option id (VStr "?") (lookup_key d "seq"))
             (from_option id (VStr "?") (lookup_key d "event_type"))
             (from_option id (VStr "?") (lookup_key d "actor_user_id"))
  | _ => EmptyString
  end.

Definition plain_event (e : value) : bool :=
  match e with
  | VDict d =>
    negb (eq_str (from_option id (VStr "?") (lookup_key d "event_type")) "public.chat")
  | _ => false
  end.

Lemma show_plain e : plain_event e = true → show e = ([line_of e], Done ()).
Proof.
  destruct e as [| | | | | |d]; try done. unfold plain_event, show. simpl.
  unfold bind. simpl. by destruct (eq_str _ "public.chat").
Qed.

End Runtime.

Example fetch_events_with_chat :
  fetch_events Report.loads_fixture Report.str_fixture
    (Ok (VList [Report.started;
                VDict [("seq", VInt 2); ("event_type", VStr "public.chat");
                       ("payload_json", VDict [("message", VStr "Hello")])]]))
  = (["Total events: 2"; "[1] game.started by system";
      nl +:+ "[2] public.chat by ?:"; "  Hello"],
     Done ()).
Proof. by vm_compute. Qed.

(** Events that are objects and no chat messages are all listed, one line
    each in the order of the answer, after the line with their number;
    the actor is printed as it is, [null] included, and nothing raises. *)
Theorem plain_events_all_listed
    (json_loads : string → result value) (str : value → string) (es : list value) :
  forallb plain_event es = true →
  fetch_events json_loads str (Ok (VList es))
  = (("Total events: " +:+ pretty (Z.of_nat (length es))) :: map (line_of str) es,
     Done ()).
Proof.
  intros Hplain. unfold fetch_events, bind. simpl.
  rewrite (for_each_done _ (λ e, [line_of str e])).
  - simpl. do 2 f_equal. clear Hplain.
    induction es as [|e es IH]; simpl; by f_equal.
  - apply Forall_forall. intros e He. apply show_plain.
    rewrite forallb_forall in Hplain. apply Hplain. by apply list_elem_of_In.
Qed.

Lemma plain_events_all_listed_witness :
  fetch_events Report.loads_fixture Report.str_fixture
    (Ok (VList [Report.started;
                VDict [("seq", VInt 2); ("event_type", VStr "phase.night");
                       ("actor_user_id", VNone)]]))
  = (("Total events: " +:+ pretty (Z.of_nat 2))
     :: map (line_of Report.str_fixture)
          [Report.started;
           VDict [("seq", VInt 2); ("event_type", VStr "phase.night");
                  ("actor_user_id", VNone)]],
     Done ()).
Proof.
  apply (plain_events_all_listed Report.loads_fixture Report.str_fixture
           [Report.started;
            VDict [("seq", VInt 2); ("event_type", VStr "phase.night");
                   ("actor_user_id", VNone)]]).
  reflexivity.
Defined.

(** A chat event whose [payload_json] is a string that does not decode:
    [fetch_events.py] keeps the string as the payload and raises
    [AttributeError] on it before it prints anything of the event, while
    [fulltest.py] puts an empty object in its place and records the event
    with the printed empty object as its message. *)
Theorem undecodable_chat_payload
    (json_loads : string → result value) (str : value → string)
    (d : dict) (s : string) (actor : value) (x : exn) :
  lookup_key d "event_type" = Some (VStr "public.chat") →
  lookup_key d "payload_json" = Some (VStr s) →
  json_loads s = Raise x →
  slice_to 20 (from_option id (VStr "?") (lookup_key d "actor_user_id")) = Ok actor →
  show json_loads str (VDict d) = ([], Raised AttributeError)
  ∧ Report.chat_message json_loads str (VDict d)
    = Ok (Some (VDict [("seq", from_option id (VStr "?") (lookup_key d "seq"));
                       ("actor", actor);
                       ("message", VStr (str (VDict [])))])).
Proof.
  intros Hty Hp Hs Hactor. split.
  - unfold show, bind. simpl. rewrite Hty, Hp. simpl. by rewrite Hs.
  - unfold Report.chat_message. simpl. rewrite Hactor, Hty, Hp. simpl.
    by rewrite Hs.
Qed.

Lemma undecodable_chat_payload_witness :
  show Report.loads_fixture Report.str_fixture
       (VDict [("seq", VInt 2); ("event_type", VStr "public.chat");
               ("actor_user_id", VStr "autodm"); ("payload_json", VStr "{")])
  = ([], Raised AttributeError)
  ∧ Report.chat_message Report.loads_fixture Report.str_fixture
      (VDict [("seq", VInt 2); ("event_type", VStr "public.chat");
              ("actor_user_id", VStr "autodm"); ("payload_json", VStr "{")])
    = Ok (Some (VDict [("seq",
                        from_option id (VStr "?")
                          (lookup_key [("seq", VInt 2);
                                       ("event_type", VStr "public.chat");
                                       ("actor_user_id", VStr "autodm");
                                       ("payload_json", VStr "{")] "seq"));
                       ("actor", VStr "autodm");
                       ("message", VStr (Report.str_fixture (VDict [])))])).
Proof.
  apply (undecodable_chat_payload Report.loads_fixture Report.str_fixture
           [("seq", VInt 2); ("event_type", VStr "public.chat");
            ("actor_user_id", VStr "autodm"); ("payload_json", VStr "{")]
           "{" (VStr "autodm") JSONDecodeError); reflexivity.
Defined.

End FetchEvents.

(** ** [compare.py] *)

Module Compare.
Import Console.
Open Scope console_scope.

Fixpoint repeat_char (c : Ascii.ascii) (n : nat) : string :=
  match n with
  | O => EmptyString
  | S n => String c (repeat_char c n)
  end.

(** [s * n] *)
Fixpoint repeat_string (s : string) (n : nat) : string :=
  match n with
  | O => EmptyString
  | S n => s +:+ repeat_string s n
  end.

(** [s.ljust(n)] *)
Definition ljust (n : nat) (s : string) : string :=
  s +:+ repeat_char " "%char (n - str_len s).

Section Runtime.

Variable str : value → string.

(** [format(v, '<20')]: [None], lists and dicts take no format
    specification; a [bool] is formatted as the integer it is. *)
Definition format_left (n : nat) (v : value) : result string :=
  match v with
  | VNone | VList _ | VDict _ => Raise TypeError
  | VBool b => Ok (ljust n (str (VInt (if b then 1 else 0))))
  | _ => Ok (ljust n (str v))
  end.

(** One of the two message loops, from index [i] on. *)
Fixpoint show_messages (label : string) (i : Z) (messages : list value) : out unit :=
  match messages with
  | [] => ret ()
  | m :: rest =>
    msg ⇐ lift (get m "message" (VStr (str m)));
    _ ⇐ print (nl +:+ "--- " +:+ label +:+ " Msg " +:+ pretty i +:+ " ---");
    cut ⇐ lift (slice_to 800 msg);
    _ ⇐ print (str cut);
    show_messages label (i + 1) rest
  end.

(** The script, from the two records it has loaded. *)
Definition compare (g d : value) : out unit :=
  _ ⇐ print (repeat_char "="%char 70);
  _ ⇐ print "  GEMINI vs DEEPSEEK Comparison";
  _ ⇐ print (repeat_char "="%char 70);
  _ ⇐ print (nl +:+ "Metric               Gemini              DeepSeek");
  _ ⇐ print (repeat_char "-"%char 65);
  _ ⇐ print "Model                gemini-3-flash      deepseek-chat";
  gt ⇐ lift (x ← LLM.getitem g "total_events"; format_left 20 x);
  dt ⇐ lift (LLM.getitem d "total_events");
  _ ⇐ print ("Total Events         " +:+ gt +:+ str dt);
  ge ⇐ lift (x ← LLM.getitem g "elapsed_seconds"; format_left 20 x);
  de ⇐ lift (LLM.getitem d "elapsed_seconds");
  _ ⇐ print ("Elapsed (sec)        " +:+ ge +:+ str de);
  _ ⇐ print (nl +:+ repeat_char "="%char 70);
  _ ⇐ print "  GEMINI AI DM Messages";
  _ ⇐ print (repeat_char "="%char 70);
  gm ⇐ lift (ms ← get g "messages" (VList []); iter ms);
  _ ⇐ show_messages "Gemini" 1 gm;
  _ ⇐ print (nl +:+ repeat_char "="%char 70);
  _ ⇐ print "  DEEPSEEK AI DM Messages";
  _ ⇐ print (repeat_char "="%char 70);
  dm ⇐ lift (ms ← get d "messages" (VList []); iter ms);
  show_messages "DeepSeek" 1 dm.

Lemma show_messages_entries label (ms : list value) : ∀ i,
  Forall (λ m, ∃ e, ReportFacts.entry_of e m) ms →
  ∃ lines, show_messages label i ms = (lines, Done ())
           ∧ length lines = (2 * length ms)%nat.
Proof.
  induction ms as [|m ms IH]; intros i Hms.
  - by exists [].
  - apply Forall_cons in Hms as [(e & actor & msg & -> & _ & Hmsg) Hms].
    destruct (IH (i + 1) Hms) as (lines & Hlines & Hlen).
    simpl. unfold bind. simpl.
    destruct msg; try done; simpl; rewrite Hlines; simpl;
      eexists; (split; [done|]); simpl; lia.
Qed.

End Runtime.

Example compare_two_records :
  let g := VDict [("provider", VStr "gemini"); ("room_id", VStr "r1");
                  ("total_events", VInt 3); ("chat_count", VInt 1);
                  ("elapsed_seconds", VInt 61);
                  ("messages",
                   VList [VDict [("seq", VInt 2); ("actor", VStr "autodm");
                                 ("message", VStr "Hello")]])] in
  let d := VDict [("provider", VStr "deepseek"); ("room_id", VStr "r2");
                  ("total_events", VInt 10); ("chat_count", VInt 0);
                  ("elapsed_seconds", VInt 12); ("messages", VList [])] in
  let lines := (compare Report.str_fixture g d).1 in
  (compare Report.str_fixture g d).2 = Done ()
  ∧ lines !! 6%nat = Some "Total Events         3                   10"
  ∧ lines !! 7%nat = Some "Elapsed (sec)        61                  12"
  ∧ lines !! 11%nat = Some (nl +:+ "--- Gemini Msg 1 ---")
  ∧ lines !! 12%nat = Some "Hello"
  ∧ length lines = 16%nat.
Proof. by vm_compute. Qed.

(** Two records that [fulltest.py] has saved are printed side by side to
    the end: no key is missing, no cell fails to format and every message
    can be cut to 800 characters; the table gives the two [total_events],
    and two lines are printed for every saved message. *)
Theorem compare_prints_saved_records
    (json_loads : string → result value) (str : value → string)
    (room_g room_d : string) (response_g response_d : result value)
    (buffer_g buffer_d : list value) (elapsed_g elapsed_d : Z) (g d : value) :
  Report.result json_loads str "gemini" room_g response_g buffer_g elapsed_g = Ok g →
  Report.result json_loads str "deepseek" room_d response_d buffer_d elapsed_d = Ok d →
  ∃ lines total_g total_d messages_g messages_d,
    compare str g d = (lines, Done ())
    ∧ ReportFacts.lookup_key_of g "total_events" = Some (VInt total_g)
    ∧ ReportFacts.lookup_key_of d "total_events" = Some (VInt total_d)
    ∧ lines !! 6%nat
      = Some ("Total Events         " +:+ ljust 20 (str (VInt total_g))
              +:+ str (VInt total_d))
    ∧ ReportFacts.lookup_key_of g "messages" = Some (VList messages_g)
    ∧ ReportFacts.lookup_key_of d "messages" = Some (VList messages_d)
    ∧ length lines = (14 + 2 * length messages_g + 2 * length messages_d)%nat.
Proof.
  intros (lg & mg & _ & Hmg & ->)%ReportFacts.result_inv
         (ld & md & _ & Hmd & ->)%ReportFacts.result_inv.
  apply ReportFacts.chat_messages_inv in Hmg, Hmd.
  assert (∀ xs ms, Forall2 ReportFacts.entry_of xs ms →
                   Forall (λ m, ∃ e, ReportFacts.entry_of e m) ms) as Hentries.
  { intros xs ms H. induction H; constructor; eauto. }
  destruct (show_messages_entries str "Gemini" mg 1 (Hentries _ _ Hmg))
    as (lines_g & Hg & Hlen_g).
  destruct (show_messages_entries str "DeepSeek" md 1 (Hentries _ _ Hmd))
    as (lines_d & Hd & Hlen_d).
  eexists _, (Z.of_nat (length lg)), (Z.of_nat (length ld)), mg, md.
  split.
  { unfold compare.
    do 15 (eapply bind_done; [reflexivity|]).
    eapply bind_done; [reflexivity|].
    eapply bind_done; [exact Hg|].
    do 3 (eapply bind_done; [reflexivity|]).
    eapply bind_done; [reflexivity|].
    exact Hd. }
  do 5 (split; [reflexivity|]).
  simpl. rewrite !length_app. simpl. lia.
Qed.

Lemma compare_prints_saved_records_witness :
  ∃ lines total_g total_d messages_g messages_d,
    compare Report.str_fixture
      (VDict [("provider", VStr "gemini"); ("room_id", VStr "r1");
              ("total_events", VInt 1); ("chat_count", VInt 0);
              ("elapsed_seconds", VInt 61); ("messages", VList [])])
      (VDict [("provider", VStr "deepseek"); ("room_id", VStr "r2");
              ("total_events", VInt 2); ("chat_count", VInt 1);
              ("elapsed_seconds", VInt 12);
              ("messages",
               VList [VDict [("seq", VInt 2);
                             ("actor", VStr "autodm-0123456789abc");
                             ("message", VStr "{}")]])])
    = (lines, Done ())
    ∧ ReportFacts.lookup_key_of
        (VDict [("provider", VStr "gemini"); ("room_id", VStr "r1");
                ("total_events", VInt 1); ("chat_count", VInt 0);
                ("elapsed_seconds", VInt 61); ("messages", VList [])])
        "total_events" = Some (VInt total_g)
    ∧ ReportFacts.lookup_key_of
        (VDict [("provider", VStr "deepseek"); ("room_id", VStr "r2");
                ("total_events", VInt 2); ("chat_count", VInt 1);
                ("elapsed_seconds", VInt 12);
                ("messages",
                 VList [VDict [("seq", VInt 2);
                               ("actor", VStr "autodm-0123456789abc");
                               ("message", VStr "{}")]])])
        "total_events" = Some (VInt total_d)
    ∧ lines !! 6%nat
      = Some ("Total Events         " +:+ ljust 20 (Report.str_fixture (VInt total_g))
              +:+ Report.str_fixture (VInt total_d))
    ∧ ReportFacts.lookup_key_of
        (VDict [("provider", VStr "gemini"); ("room_id", VStr "r1");
                ("total_events", VInt 1); ("chat_count", VInt 0);
                ("elapsed_seconds", VInt 61); ("messages", VList [])])
        "messages" = Some (VList messages_g)
    ∧ ReportFacts.lookup_key_of
        (VDict [("provider", VStr "deepseek"); ("room_id", VStr "r2");
                ("total_events", VInt 2); ("chat_count", VInt 1);
                ("elapsed_seconds", VInt 12);
                ("messages",
                 VList [VDict [("seq", VInt 2);
                               ("actor", VStr "autodm-0123456789abc");
                               ("message", VStr "{}")]])])
        "messages" = Some (VList messages_d)
    ∧ length lines = (14 + 2 * length messages_g + 2 * length messages_d)%nat.
Proof.
  apply (compare_prints_saved_records Report.loads_fixture Report.str_fixture
           "r1" "r2" (Raise URLError) (Ok (VList [Report.started; Report.chat 2 "{"]))
           [Report.started] [] 61 12); reflexivity.
Defined.

End Compare.

(** ** [test_integration.ws_listener] *)

Module Integration.

Section Listener.

Variable json_loads : string → result value.

(** What one frame leaves in [ws_messages]: the decoded frame, or the raw
    text wrapped in an object when it is no JSON. *)
Definition entry (msg : string) : value :=
  match json_loads msg with
  | Ok data => data
  | Raise _ => VDict [("raw", VStr msg)]
  end.

(** The listener thread.  [incoming] lists what the successive [ws.recv()]
    give; past its end the socket is closed and the receive raises. *)
Fixpoint ws_listener (incoming : list (result string)) (ws_messages : list value)
    : list value :=
  match incoming with
  | [] => ws_messages
  | Raise _ :: _ => ws_messages
  | Ok msg :: rest =>
    if String.eqb msg EmptyString then ws_listener rest ws_messages
    else ws_listener rest (ws_messages ++ [entry msg])
  end.

(** The frames received before the first receive that raises. *)
Fixpoint received (incoming : list (result string)) : list string :=
  match incoming with
  | Ok msg :: rest => msg :: received rest
  | _ => []
  end.

Definition non_empty (msg : string) : bool := negb (String.eqb msg EmptyString).

Lemma ws_listener_received incoming : ∀ ws_messages,
  ws_listener incoming ws_messages
  = ws_messages ++ map entry (List.filter non_empty (received incoming)).
Proof.
  induction incoming as [|[msg|e] incoming IH]; intros ws_messages; simpl;
    try by rewrite app_nil_r.
  unfold non_empty at 1. destruct (String.eqb msg EmptyString); simpl.
  - apply IH.
  - rewrite IH. by rewrite <- app_assoc.
Qed.

End Listener.

Example ws_listener_mixed_frames :
  ws_listener Collector.frames_fixture
    [Ok "ack"; Ok EmptyString; Ok "pong"; Ok "list"; Raise WebSocketTimeoutException;
     Ok "chat"] []
  = [VDict [("type", VStr "subscribed")]; VDict [("raw", VStr "pong")]; VList []].
Proof. reflexivity. Qed.

(** The listener keeps one entry for every non-empty frame received, in
    the order of arrival, decoded or wrapped as [{"raw": frame}]; it stops
    for good at the first receive that raises, and what comes after is
    never read. *)
Theorem ws_messages_are_received_frames
    (json_loads : string → result value)
    (incoming later : list (result string)) (e : exn) :
  ws_listener json_loads incoming []
  = map (entry json_loads) (List.filter non_empty (received incoming))
  ∧ ws_listener json_loads (incoming ++ Raise e :: later) []
    = ws_listener json_loads incoming []
  ∧ (length (ws_listener json_loads incoming []) ≤ length incoming)%nat.
Proof.
  rewrite !ws_listener_received. simpl.
  assert (received (incoming ++ Raise e :: later) = received incoming) as ->.
  { induction incoming as [|[msg|e'] incoming IH]; simpl; by rewrite ?IH. }
  repeat split.
  rewrite length_map.
  etrans; [apply List.filter_length_le|].
  induction incoming as [|[msg|e'] incoming IH]; simpl; lia.
Qed.

End Integration.

(** ** The event distributions of [test_debug.py] and [test_integration.py] *)

Module Distribution.

(** A [dict] that counts, keyed by the objects that can be keys: lists and
    dicts cannot.  [True], [1] and [1.0] are one key, as are [False], [0]
    and [0.0]; the key first inserted stays. *)
Definition hashable (v : value) : bool :=
  match v with VList _ | VDict _ => false | _ => true end.

Definition number (v : value) : option Z :=
  match v with
  | VBool b => Some (if b then 1000 else 0)
  | VInt n => Some (1000 * n)
  | VFloat x => Some x
  | _ => None
  end.

Definition key_eqb (a b : value) : bool :=
  match a, b with
  | VNone, VNone => true
  | VStr s, VStr t => String.eqb s t
  | _, _ =>
    match number a, number b with
    | Some x, Some y => x =? y
    | _, _ => false
    end
  end.

Definition counts := list (value * Z).

(** [event_types[k] = event_types.get(k, 0) + 1] for a hashable [k]. *)
Fixpoint bump (k : value) (event_types : counts) : counts :=
  match event_types with
  | [] => [(k, 1)]
  | (k', n) :: rest =>
    if key_eqb k' k then (k', n + 1) :: rest else (k', n) :: bump k rest
  end.

Definition count (k : value) (event_types : counts) : result counts :=
  if hashable k then Ok (bump k event_types) else Raise TypeError.

(** [test_debug.py], lines 98 to 102. *)
Fixpoint debug_event_types (all_events : list value) (event_types : counts)
    : result counts :=
  match all_events with
  | [] => Ok event_types
  | msg :: rest =>
    ty ← get msg "type" VNone;
    if eq_str ty "event" then
      payload ← get msg "payload" (VDict []);
      et ← get payload "event_type" (VStr "?");
      event_types ← count et event_types;
      debug_event_types rest event_types
    else debug_event_types rest event_types
  end.

(** [test_integration.py], lines 124 to 128.  The same turn of the loop
    goes on to fill [ai_messages]; that part raises nothing and leaves
    [event_types] alone. *)
Fixpoint integration_event_types (ws_messages : list value) (event_types : counts)
    : result counts :=
  match ws_messages with
  | [] => Ok event_types
  | msg :: rest =>
    fallback ← get msg "event_type" (VStr "unknown");
    etype ← get msg "type" fallback;
    event_types ← count etype event_types;
    integration_event_types rest event_types
  end.

Definition total (event_types : counts) : Z :=
  foldr (λ kn acc, kn.2 + acc) 0 event_types.

Definition positive (event_types : counts) : Prop :=
  Forall (λ kn : value * Z, 1 ≤ kn.2) event_types.

Lemma bump_total k event_types : total (bump k event_types) = total event_types + 1.
Proof.
  unfold total. induction event_types as [|[k' n] rest IH]; simpl; [done|].
  destruct (key_eqb k' k); simpl; lia.
Qed.

Lemma bump_positive k event_types :
  positive event_types → positive (bump k event_types).
Proof.
  induction 1 as [|[k' n] rest Hn Hrest IH]; simpl.
  - by repeat constructor.
  - destruct (key_eqb k' k); constructor; simpl in *; try done; lia.
Qed.

Lemma debug_event_types_total all_events : ∀ event_types distribution,
  debug_event_types all_events event_types = Ok distribution →
  positive event_types →
  total distribution
  = total event_types
    + Z.of_nat (length (List.filter (Protocol.is_kind "event") all_events))
  ∧ positive distribution.
Proof.
  induction all_events as [|msg rest IH]; intros event_types distribution.
  - simpl. intros [= <-] Hpos. split; [lia|done].
  - change (List.filter (Protocol.is_kind "event") (msg :: rest))
      with (if Protocol.is_kind "event" msg
            then msg :: List.filter (Protocol.is_kind "event") rest
            else List.filter (Protocol.is_kind "event") rest).
    cbn [debug_event_types]. unfold Protocol.is_kind at 1.
    destruct (get msg "type" VNone) as [ty|]; [|done]. cbn [bind].
    destruct (eq_str ty "event"); [|by apply IH].
    destruct (get msg "payload" (VDict [])) as [payload|]; [|done]. cbn [bind].
    destruct (get payload "event_type" (VStr "?")) as [et|]; [|done]. cbn [bind].
    unfold count. destruct (hashable et); [|done]. cbn [bind].
    intros Hrest Hpos. apply IH in Hrest as [-> Hpos']; [|by apply bump_positive].
    split; [|done]. rewrite bump_total. cbn [length]. lia.
Qed.

Lemma integration_event_types_total ws_messages : ∀ event_types distribution,
  integration_event_types ws_messages event_types = Ok distribution →
  positive event_types →
  total distribution = total event_types + Z.of_nat (length ws_messages)
  ∧ positive distribution.
Proof.
  induction ws_messages as [|msg rest IH]; intros event_types distribution; simpl.
  - intros [= <-] Hpos. split; [lia|done].
  - destruct (get msg "event_type" (VStr "unknown")) as [fallback|]; [|done]. simpl.
    destruct (get msg "type" fallback) as [etype|]; [|done]. simpl.
    unfold count. destruct (hashable etype); [|done]. simpl.
    intros Hrest Hpos. apply IH in Hrest as [-> Hpos']; [|by apply bump_positive].
    split; [|done]. rewrite bump_total. lia.
Qed.

(** [True] and [1] count under the key that came first; a list cannot be
    counted. *)
Example bump_numbers :
  bump (VInt 1) (bump (VStr "1") (bump (VBool true) []))
  = [(VBool true, 2); (VStr "1", 1)]
  ∧ count (VList []) [] = Raise TypeError.
Proof. done. Qed.

(** The distribution that [test_debug.py] prints accounts for every
    [event] envelope collected exactly once: its counts add up to their
    number, and no type is listed with a count below one. *)
Theorem debug_distribution_counts_event_envelopes
    (all_events : list value) (distribution : counts) :
  debug_event_types all_events [] = Ok distribution →
  total distribution
  = Z.of_nat (length (List.filter (Protocol.is_kind "event") all_events))
  ∧ positive distribution.
Proof.
  intros H. apply debug_event_types_total in H as [-> Hpos]; [|constructor].
  split; [|done]. unfold total. simpl. lia.
Qed.

Definition envelope (etype : string) : value :=
  VDict [("type", VStr "event"); ("payload", VDict [("event_type", VStr etype)])].

Lemma debug_distribution_counts_event_envelopes_witness :
  total [(VStr "phase.night", 2); (VStr "public.chat", 1)]
  = Z.of_nat (length (List.filter (Protocol.is_kind "event")
       [envelope "phase.night"; VDict [("type", VStr "command_result")];
        envelope "public.chat"; envelope "phase.night"]))
  ∧ positive [(VStr "phase.night", 2); (VStr "public.chat", 1)].
Proof.
  apply (debug_distribution_counts_event_envelopes
           [envelope "phase.night"; VDict [("type", VStr "command_result")];
            envelope "public.chat"; envelope "phase.night"]).
  reflexivity.
Defined.

(** The distribution that [test_integration.py] prints accounts for every
    message of the listener exactly once, frames kept raw included (they
    count as ["unknown"]). *)
Theorem integration_distribution_counts_every_message
    (ws_messages : list value) (distribution : counts) :
  integration_event_types ws_messages [] = Ok distribution →
  total distribution = Z.of_nat (length ws_messages)
  ∧ positive distribution.
Proof.
  intros H. apply integration_event_types_total in H as [-> Hpos]; [|constructor].
  split; [|done]. unfold total. simpl. lia.
Qed.

Lemma integration_distribution_counts_every_message_witness :
  total [(VStr "event", 2); (VStr "unknown", 1)]
  = Z.of_nat (length [envelope "phase.night"; VDict [("raw", VStr "pong")];
                      envelope "public.chat"])
  ∧ positive [(VStr "event", 2); (VStr "unknown", 1)].
Proof.
  apply (integration_distribution_counts_every_message
           [envelope "phase.night"; VDict [("raw", VStr "pong")];
            envelope "public.chat"]).
  reflexivity.
Defined.

End Distribution.

(** ** The provider probes and how [main] prints their records *)

Module LLMFacts.
Import LLM Console.
Open Scope console_scope.

Section Probes.

Variables GEMINI_API_KEY DEEPSEEK_API_KEY SYSTEM_PROMPT : string.
Variable urlopen : request → http_outcome.
Variables start finish : Z.
Variable exn_str : exn → string.
Variable http_error_str : Z → string.

Lemma gemini_text_is_str body text tokens :
  gemini_text_tokens body = Ok (text, tokens) → ∃ s, text = VStr s.
Proof.
  unfold gemini_text_tokens.
  destruct (contains "candidates" body) as [[|]|]; [| |done]; simpl.
  - destruct (getitem body "candidates") as [candidates|]; [|done]. simpl.
    destruct (len candidates) as [n|]; [|done]. simpl.
    destruct (0 <? n)%nat.
    + destruct (getitem_0 candidates) as [first|]; [|done]. simpl.
      destruct (get first "content" _) as [content|]; [|done]. simpl.
      destruct (get content "parts" _) as [parts|]; [|done]. simpl.
      destruct (iter parts) as [ps|]; [|done]. simpl.
      destruct (mapM _ ps) as [texts|]; [|done]. simpl.
      destruct (join texts) as [s|]; [|done]. simpl.
      destruct (contains "usageMetadata" body) as [[|]|]; [| |done]; simpl.
      * destruct (getitem body "usageMetadata"); [|done]. simpl.
        intros [= <- _]. eauto.
      * intros [= <- _]. eauto.
    + simpl. destruct (contains "usageMetadata" body) as [[|]|]; [| |done]; simpl.
      * destruct (getitem body "usageMetadata"); [|done]. simpl.
        intros [= <- _]. eauto.
      * intros [= <- _]. eauto.
  - destruct (contains "usageMetadata" body) as [[|]|]; [| |done]; simpl.
    + destruct (getitem body "usageMetadata"); [|done]. simpl.
      intros [= <- _]. eauto.
    + intros [= <- _]. eauto.
Qed.

End Probes.

(** Whenever [test_gemini] reports success, the [text] of its record is a
    string: the parts are joined, and a body that cannot be joined is
    reported as a failure. *)
Theorem gemini_success_text_is_str
    (GEMINI_API_KEY SYSTEM_PROMPT : string) (urlopen : request → http_outcome)
    (start finish : Z) (exn_str : exn → string) (http_error_str : Z → string)
    (p : prompt_data) (d : dict) :
  test_gemini GEMINI_API_KEY SYSTEM_PROMPT urlopen start finish
              exn_str http_error_str p = Ok (VDict d) →
  lookup_key d "success" = Some (VBool true) →
  ∃ s, lookup_key d "text" = Some (VStr s).
Proof.
  unfold test_gemini.
  destruct (urlopen _) as [[body|e]|code [[error_body|e]|]|e]; simpl;
    try (by intros [= <-]).
  destruct (gemini_text_tokens body) as [[text tokens]|e] eqn:Hbody.
  - apply gemini_text_is_str in Hbody as [s ->]. intros [= <-] _. by exists s.
  - by intros [= <-].
Qed.

Lemma gemini_success_text_is_str_witness :
  ∃ s, lookup_key
         [("success", VBool true); ("text", VStr "Night falls.");
          ("latency", VFloat 850); ("tokens", VDict []); ("raw_status", VInt 200)]
         "text" = Some (VStr s).
Proof.
  apply (gemini_success_text_is_str "key" "prompt"
    (λ _, Responded (Ok (VDict
       [("candidates",
         VList [VDict [("content",
                        VDict [("parts", VList [VDict [("text", VStr "Night ")];
                                                VDict [("text", VStr "falls.")]])])]])])))
    1000 1850 (λ _, "error") (λ _, "HTTP Error") (PromptData "opening" "first night"));
    reflexivity.
Defined.

(** After an HTTP error whose body could be read, the [error] of the
    record is ["HTTP <code>: "] followed by the first 500 characters of
    the body, the whole body when it has no more than that, and
    [raw_status] is the code; the same in both probes.  Characters are
    code points: a body of 167 characters in 501 bytes is kept whole. *)
Theorem http_error_body_cut_to_500
    (GEMINI_API_KEY DEEPSEEK_API_KEY SYSTEM_PROMPT : string)
    (urlopen : request → http_outcome)
    (start finish : Z) (exn_str : exn → string) (http_error_str : Z → string)
    (p : prompt_data) (code : Z) (body : string) :
  urlopen (gemini_request GEMINI_API_KEY SYSTEM_PROMPT p)
  = HTTPError code (Some (Ok body)) →
  urlopen (deepseek_request DEEPSEEK_API_KEY SYSTEM_PROMPT p)
  = HTTPError code (Some (Ok body)) →
  ∃ cut,
    String.prefix cut body = true
    ∧ str_len cut = (500 `min` str_len body)%nat
    ∧ ((str_len body ≤ 500)%nat → cut = body)
    ∧ test_gemini GEMINI_API_KEY SYSTEM_PROMPT urlopen start finish
                  exn_str http_error_str p
      = Ok (VDict [("success", VBool false);
                   ("error", VStr ("HTTP " +:+ pretty code +:+ ": " +:+ cut));
                   ("latency", VFloat (finish - start)); ("raw_status", VInt code)])
    ∧ test_deepseek DEEPSEEK_API_KEY SYSTEM_PROMPT urlopen start finish
                    exn_str http_error_str p
      = test_gemini GEMINI_API_KEY SYSTEM_PROMPT urlopen start finish
                    exn_str http_error_str p.
Proof.
  intros Hg Hd. exists (str_take 500 body).
  split; [apply str_take_prefix|]. split; [apply str_len_take|].
  split; [apply str_take_all|].
  unfold test_gemini, test_deepseek. by rewrite Hg, Hd.
Qed.

(** A body of three-byte characters: 167 of them are 501 bytes. *)
Definition wide_body : string :=
  Compare.repeat_string "错" 167.

Lemma http_error_body_cut_to_500_witness :
  ∃ cut,
    String.prefix cut wide_body = true
    ∧ str_len cut = (500 `min` str_len wide_body)%nat
    ∧ ((str_len wide_body ≤ 500)%nat → cut = wide_body)
    ∧ test_gemini "k1" "prompt" (λ _, HTTPError 401 (Some (Ok wide_body)))
                  1000 1200 (λ _, "error") (λ _, "HTTP Error")
                  (PromptData "opening" "first night")
      = Ok (VDict [("success", VBool false);
                   ("error", VStr ("HTTP " +:+ pretty 401 +:+ ": " +:+ cut));
                   ("latency", VFloat (1200 - 1000)); ("raw_status", VInt 401)])
    ∧ test_deepseek "k2" "prompt" (λ _, HTTPError 401 (Some (Ok wide_body)))
                    1000 1200 (λ _, "error") (λ _, "HTTP Error")
                    (PromptData "opening" "first night")
      = test_gemini "k1" "prompt" (λ _, HTTPError 401 (Some (Ok wide_body)))
                    1000 1200 (λ _, "error") (λ _, "HTTP Error")
                    (PromptData "opening" "first night").
Proof.
  apply (http_error_body_cut_to_500 "k1" "k2" "prompt"
           (λ _, HTTPError 401 (Some (Ok wide_body))) 1000 1200
           (λ _, "error") (λ _, "HTTP Error")
           (PromptData "opening" "first night") 401 wide_body); reflexivity.
Defined.

(** The body of 167 characters is longer than 500 bytes and is kept
    whole; one of 501 characters loses its last. *)
Example wide_body_kept_whole :
  String.length wide_body = 501%nat
  ∧ str_len wide_body = 167%nat
  ∧ str_take 500 wide_body = wide_body
  ∧ str_len (str_take 500 (Compare.repeat_string "错" 501)) = 500%nat.
Proof. by vm_compute. Qed.

End LLMFacts.

(** ** [test_llm_api.main]: printing a record *)

Module LLMMain.
Import LLM Console.
Open Scope console_scope.

Section Runtime.

Variable str : value → string.
(** [format(x, '.2f')] of a number. *)
Variable format_2f : value → string.

(** [f"{v:.2f}"]: numbers only; a string raises [ValueError], the other
    objects take no format specification. *)
Definition fixed_2 (v : value) : out string :=
  match v with
  | VFloat _ | VInt _ | VBool _ => ret (format_2f v)
  | VStr _ => ([], RaisedValueError)
  | _ => lift (Raise TypeError)
  end.

(** What [main] prints of the record a probe has returned. *)
Definition show_result (r : value) : out unit :=
  success ⇐ lift (getitem r "success");
  if truthy success then
    latency ⇐ lift (getitem r "latency");
    shown ⇐ fixed_2 latency;
    tokens ⇐ lift (get r "tokens" (VDict []));
    _ ⇐ print ("✅ 成功 | 延迟: " +:+ shown +:+ "s | Tokens: " +:+ str tokens);
    text ⇐ lift (getitem r "text");
    n ⇐ lift (len text);
    _ ⇐ print ("📝 回复 (" +:+ pretty (Z.of_nat n) +:+ " 字符):");
    text ⇐ lift (getitem r "text");
    cut ⇐ lift (slice_to 600 text);
    _ ⇐ print (str cut);
    text ⇐ lift (getitem r "text");
    n ⇐ lift (len text);
    if (600 <? n)%nat then
      text ⇐ lift (getitem r "text");
      n ⇐ lift (len text);
      print ("... (截断，总共 " +:+ pretty (Z.of_nat n) +:+ " 字符)")
    else ret ()
  else
    error ⇐ lift (getitem r "error");
    print ("❌ 失败 | " +:+ str error).

Lemma show_success_str (s : string) (tokens : value) (latency : Z) :
  ∃ lines, show_result (success_record (VStr s) tokens latency) = (lines, Done ()).
Proof.
  unfold show_result.
  destruct (600 <? str_len s)%nat eqn:Hlong; eexists;
    do 13 (eapply bind_done; [reflexivity|]); cbv beta; rewrite Hlong.
  - do 2 (eapply bind_done; [reflexivity|]). reflexivity.
  - reflexivity.
Qed.

Lemma show_failure (r : value) (error : value) :
  getitem r "success" = Ok (VBool false) → getitem r "error" = Ok error →
  show_result r = (["❌ 失败 | " +:+ str error], Done ()).
Proof.
  intros Hs He. unfold show_result.
  rewrite (bind_lift_ok _ _ _ Hs). cbn [truthy].
  by rewrite (bind_lift_ok _ _ _ He).
Qed.

Lemma show_success_unsliceable (x tokens : value) (latency : Z) :
  match x with VStr _ | VList _ => False | _ => True end →
  (show_result (success_record x tokens latency)).2 = Raised TypeError.
Proof.
  intros Hx. unfold show_result.
  destruct x; try (by destruct Hx);
    repeat (eapply bind_done_status; [reflexivity|]);
    by apply bind_raised_status.
Qed.

End Runtime.

Example show_gemini_answer :
  show_result Report.str_fixture (λ _, "0.85")
    (success_record (VStr "Night falls.") (VDict []) 850)
  = (["✅ 成功 | 延迟: 0.85s | Tokens: {}"; "📝 回复 (12 字符):"; "Night falls."],
     Done ()).
Proof. by vm_compute. Qed.

(** Every record that [test_gemini] returns is printed by [main] to the
    end: the keys it reads are there, the latency is a number and the text
    has a length and can be cut. *)
Theorem main_prints_every_gemini_record
    (str format_2f : value → string)
    (GEMINI_API_KEY SYSTEM_PROMPT : string) (urlopen : request → http_outcome)
    (start finish : Z) (exn_str : exn → string) (http_error_str : Z → string)
    (p : prompt_data) (r : value) :
  test_gemini GEMINI_API_KEY SYSTEM_PROMPT urlopen start finish
              exn_str http_error_str p = Ok r →
  ∃ lines, show_result str format_2f r = (lines, Done ()).
Proof.
  unfold test_gemini.
  destruct (urlopen _) as [[body|e]|code [[error_body|e]|]|e]; simpl;
    try done; try (intros [= <-]; eexists; by apply show_failure).
  destruct (gemini_text_tokens body) as [[text tokens]|e] eqn:Hbody.
  - apply (LLMFacts.gemini_text_is_str) in Hbody as [s ->]. intros [= <-].
    apply show_success_str.
  - intros [= <-]. eexists. by apply show_failure.
Qed.

Lemma main_prints_every_gemini_record_witness :
  ∃ lines,
    show_result Report.str_fixture (λ _, "0.20")
      (VDict [("success", VBool false); ("error", VStr "HTTP 401: bad key");
              ("latency", VFloat 200); ("raw_status", VInt 401)])
    = (lines, Done ()).
Proof.
  apply (main_prints_every_gemini_record Report.str_fixture (λ _, "0.20")
           "k1" "prompt" (λ _, HTTPError 401 (Some (Ok "bad key")))
           1000 1200 (λ _, "error") (λ _, "HTTP Error")
           (PromptData "opening" "first night")).
  by vm_compute.
Defined.

(** [test_deepseek] hands the [content] of the first choice on as [text]
    without looking at it, under a true [success]; when the content is not
    a string or a list, a [null] for one, [main] raises [TypeError] as it
    prints the record. *)
Theorem deepseek_content_passed_unchecked
    (str format_2f : value → string)
    (DEEPSEEK_API_KEY SYSTEM_PROMPT : string) (urlopen : request → http_outcome)
    (start finish : Z) (exn_str : exn → string) (http_error_str : Z → string)
    (p : prompt_data) (body choice message : dict) (choices : list value)
    (content : value) :
  urlopen (deepseek_request DEEPSEEK_API_KEY SYSTEM_PROMPT p)
  = Responded (Ok (VDict body)) →
  lookup_key body "choices" = Some (VList (VDict choice :: choices)) →
  lookup_key choice "message" = Some (VDict message) →
  lookup_key message "content" = Some content →
  ∃ tokens,
    test_deepseek DEEPSEEK_API_KEY SYSTEM_PROMPT urlopen start finish
                  exn_str http_error_str p
    = Ok (success_record content tokens (finish - start))
    ∧ (match content with VStr _ | VList _ => False | _ => True end →
       (show_result str format_2f
          (success_record content tokens (finish - start))).2
       = Raised TypeError).
Proof.
  intros Hurl Hchoices Hmessage Hcontent.
  unfold test_deepseek. rewrite Hurl. simpl.
  unfold deepseek_text_tokens. simpl. rewrite Hchoices. simpl.
  rewrite Hmessage. simpl. rewrite Hcontent. simpl.
  destruct (lookup_key body "usage") as [usage|]; simpl.
  - exists usage. split; [reflexivity|].
    exact (show_success_unsliceable str format_2f content usage (finish - start)).
  - exists (VDict []). split; [reflexivity|].
    exact (show_success_unsliceable str format_2f content (VDict []) (finish - start)).
Qed.

Lemma deepseek_content_passed_unchecked_witness :
  ∃ tokens,
    test_deepseek "k2" "prompt"
      (λ _, Responded (Ok (VDict
         [("choices", VList [VDict [("message", VDict [("content", VNone)])]])])))
      1000 1200 (λ _, "error") (λ _, "HTTP Error")
      (PromptData "opening" "first night")
    = Ok (success_record VNone tokens (1200 - 1000))
    ∧ (match VNone with VStr _ | VList _ => False | _ => True end →
       (show_result Report.str_fixture (λ _, "0.20")
          (success_record VNone tokens (1200 - 1000))).2
       = Raised TypeError).
Proof.
  apply (deepseek_content_passed_unchecked Report.str_fixture (λ _, "0.20")
           "k2" "prompt"
           (λ _, Responded (Ok (VDict
              [("choices", VList [VDict [("message", VDict [("content", VNone)])]])])))
           1000 1200 (λ _, "error") (λ _, "HTTP Error")
           (PromptData "opening" "first night")
           [("choices", VList [VDict [("message", VDict [("content", VNone)])]])]
           [("message", VDict [("content", VNone)])]
           [("content", VNone)] [] VNone); reflexivity.
Defined.

End LLMMain.
